(** * geoc: the state machine of the geocaching puzzle (src/main/main.ino)

    A shallow embedding of the Arduino sketch: the [context] aggregate, the
    input routines [update_loc] and [update_buttons], the six handlers of
    the state machine and the control loop, followed by the properties the
    specification states about them.

    Conventions of the embedding.
    - The target is the MKR1000 (SAMD21, 32-bit ARM): [int] is 32 bits wide,
      [uint32_t] arithmetic wraps modulo 2^32, [double] is IEEE binary64
      (Rocq's primitive floats).  Integers are [Z]; every operation that can
      leave the range of its C type has the wrap-around written out (for
      [int], where C leaves overflow undefined, the two's complement
      wrap-around of the target's instructions).
    - C's [/] and [%] truncate towards zero: [Z.quot] and [Z.rem].
    - Fixed-size C arrays are stdpp vectors; an access [a[i]] with a
      run-time index goes through [index], and an index outside the array
      (undefined behaviour in C) makes the enclosing function return [None].
    - Reads of the outside world (clock, serial line, pins) are arguments of
      the function that performs them; writes to the outside world (the LED,
      the display) are returned as a list of [output] events.
    - [NDEBUG] is defined, so [print_status] is the empty function and is
      left out. *)

From Stdlib Require Import ZArith Bool List Lia.
From Stdlib Require Import Floats.PrimFloat.
From Stdlib Require Floats.SpecFloat Floats.FloatOps Floats.FloatAxioms.
From Stdlib Require Numbers.Cyclic.Int63.Uint63.
From stdpp Require Import base tactics option list fin vector.

Local Open Scope Z_scope.

(** ** Machine integers *)

Definition wrap_unsigned (bits z : Z) : Z := z mod 2 ^ bits.

Definition wrap_signed (bits z : Z) : Z :=
  (z + 2 ^ (bits - 1)) mod 2 ^ bits - 2 ^ (bits - 1).

(** [int], [int8_t], [uint8_t] and [uint32_t] of the target. *)
Definition to_int : Z -> Z := wrap_signed 32.
Definition to_int8 : Z -> Z := wrap_signed 8.
Definition to_uint8 : Z -> Z := wrap_unsigned 8.
Definition to_uint32 : Z -> Z := wrap_unsigned 32.

Definition INT_MAX : Z := 2147483647.
Definition UINT32_MAX : Z := 4294967295.

(** ** Array indexing *)

Fixpoint fin_of_nat (n i : nat) : option (fin n) :=
  match n with
  | O => None
  | S n' =>
      match i with
      | O => Some 0%fin
      | S i' => FS <$> fin_of_nat n' i'
      end
  end.

(** [index n z] is the position [z] of an array of [n] elements, when
    there is one. *)
Definition index (n : nat) (z : Z) : option (fin n) :=
  if 0 <=? z then fin_of_nat n (Z.to_nat z) else None.

(** ** Types *)

(** A goal: a location in radians and a password of four hex digits
    ([uint8_t passwd[4]]). *)
Record goal : Type := mk_goal {
  goal_lt : float;
  goal_ln : float;
  goal_passwd : vec Z 4
}.

(** The [bool* event] of a button points at one of three flags of the
    [state] of the same context. *)
Inductive event_ref : Type := ev_reset | ev_pos | ev_count.

Record button : Type := mk_button {
  btn_was_down : bool;
  btn_event : event_ref;
  btn_pin : Z
}.

Record state : Type := mk_state {
  st_satcon : bool;
  st_reached : bool;
  st_passwd : bool;
  st_fetched : bool;
  st_completed : bool;
  st_reset : bool;
  st_pos : bool;
  st_count : bool
}.

Record context : Type := mk_context {
  input_pos : Z;
  display_value : vec Z 4;
  distance : Z;
  current_goal : Z;
  final_goal : Z;
  goals : vec goal 10;
  st : state;
  btn : vec button 3
}.

(** The six handlers; the C type wraps a pointer to one of them. *)
Inductive handler : Type :=
  | MAIN | FETCH | SATCON | SUBGOAL | NEXT_GOAL | COMPLETE.

(** Writes to the outside world. *)
Inductive output : Type :=
  | DigitalWrite (pin : Z) (level : bool)
  | SetSegments (digits : vec Z 4).

(** ** Field updates *)

Definition set_st_satcon (b : bool) (s : state) : state :=
  mk_state b (st_reached s) (st_passwd s) (st_fetched s) (st_completed s)
           (st_reset s) (st_pos s) (st_count s).
Definition set_st_reached (b : bool) (s : state) : state :=
  mk_state (st_satcon s) b (st_passwd s) (st_fetched s) (st_completed s)
           (st_reset s) (st_pos s) (st_count s).
Definition set_st_passwd (b : bool) (s : state) : state :=
  mk_state (st_satcon s) (st_reached s) b (st_fetched s) (st_completed s)
           (st_reset s) (st_pos s) (st_count s).
Definition set_st_fetched (b : bool) (s : state) : state :=
  mk_state (st_satcon s) (st_reached s) (st_passwd s) b (st_completed s)
           (st_reset s) (st_pos s) (st_count s).
Definition set_st_completed (b : bool) (s : state) : state :=
  mk_state (st_satcon s) (st_reached s) (st_passwd s) (st_fetched s) b
           (st_reset s) (st_pos s) (st_count s).
Definition set_st_reset (b : bool) (s : state) : state :=
  mk_state (st_satcon s) (st_reached s) (st_passwd s) (st_fetched s)
           (st_completed s) b (st_pos s) (st_count s).
Definition set_st_pos (b : bool) (s : state) : state :=
  mk_state (st_satcon s) (st_reached s) (st_passwd s) (st_fetched s)
           (st_completed s) (st_reset s) b (st_count s).
Definition set_st_count (b : bool) (s : state) : state :=
  mk_state (st_satcon s) (st_reached s) (st_passwd s) (st_fetched s)
           (st_completed s) (st_reset s) (st_pos s) b.

Definition set_input_pos (z : Z) (ct : context) : context :=
  mk_context z (display_value ct) (distance ct) (current_goal ct)
             (final_goal ct) (goals ct) (st ct) (btn ct).
Definition set_display_value (v : vec Z 4) (ct : context) : context :=
  mk_context (input_pos ct) v (distance ct) (current_goal ct)
             (final_goal ct) (goals ct) (st ct) (btn ct).
Definition set_distance_field (z : Z) (ct : context) : context :=
  mk_context (input_pos ct) (display_value ct) z (current_goal ct)
             (final_goal ct) (goals ct) (st ct) (btn ct).
Definition set_current_goal (z : Z) (ct : context) : context :=
  mk_context (input_pos ct) (display_value ct) (distance ct) z
             (final_goal ct) (goals ct) (st ct) (btn ct).
Definition set_final_goal (z : Z) (ct : context) : context :=
  mk_context (input_pos ct) (display_value ct) (distance ct) (current_goal ct)
             z (goals ct) (st ct) (btn ct).
Definition set_goals (g : vec goal 10) (ct : context) : context :=
  mk_context (input_pos ct) (display_value ct) (distance ct) (current_goal ct)
             (final_goal ct) g (st ct) (btn ct).
Definition set_st (s : state) (ct : context) : context :=
  mk_context (input_pos ct) (display_value ct) (distance ct) (current_goal ct)
             (final_goal ct) (goals ct) s (btn ct).
Definition set_btn (b : vec button 3) (ct : context) : context :=
  mk_context (input_pos ct) (display_value ct) (distance ct) (current_goal ct)
             (final_goal ct) (goals ct) (st ct) b.

(** [ct->display_value[i] = x] for an index known to be in range. *)
Definition store_display (i : fin 4) (x : Z) (ct : context) : context :=
  set_display_value (vinsert i x (display_value ct)) ct.

(** ** Globals *)

Definition GPS_TIMEOUT : Z := 4000.
Definition GPS_SERIAL_TIMEOUT : Z := 100.
Definition BTN_DELAY : Z := 100.
Definition DST_TOLERANCE : Z := 20.
Definition BLANK_C : Z := 255.
Definition DASH_C : Z := 254.
Definition RESET : Z := 0.
Definition POS : Z := 1.
Definition COUNT : Z := 4.
Definition LED_R : Z := 2.

(** ** Utilities *)

(** [init_context]: every field but [goals] is assigned. *)
Definition init_context (ct : context) : context :=
  mk_context 0 [# -1; -1; -1; -1] (-1) 0 (-1) (goals ct)
    (mk_state false false false false false false false false)
    [# mk_button false ev_reset RESET;
       mk_button false ev_pos POS;
       mk_button false ev_count COUNT ].

(** The loop variable of [set_distance]: [dig_enable], [upper], [lower]. *)
Record scan : Type := mk_scan {
  dig_enable : bool;
  upper : Z;
  lower : Z
}.

(** One iteration of the loop of [set_distance], at position [i]. *)
Definition set_distance_iter (i : fin 4) (acc : scan * context)
  : scan * context :=
  let '(s, ct) := acc in
  let digit := to_int8 (Z.quot (Z.rem (distance ct) (upper s)) (lower s)) in
  let en := if negb (dig_enable s) then 0 <? digit else dig_enable s in
  let ct := store_display i (if en then digit else BLANK_C) ct in
  (mk_scan en (lower s) (to_int (Z.quot (lower s) 10)), ct).

Definition set_distance (ct : context) : context :=
  snd (foldl (fun acc i => set_distance_iter i acc)
             (mk_scan false 10000 1000, ct)
             [0%fin; 1%fin; 2%fin; 3%fin]).

(** [deg_to_rad]: [PI * degree / 180], evaluated left to right in
    binary64.  [PI] is the Arduino core's macro
    [3.1415926535897932384626433832795]. *)
Definition PI : float := 0x1.921fb54442d18p+1%float.

Definition deg_to_rad (degree : float) : float :=
  (PI * degree / 180)%float.

(** [*ct->btn[i].event = b]: the write goes to the flag of [ct->st] the
    pointer was aimed at by [init_context]. *)
Definition store_event (e : event_ref) (b : bool) (s : state) : state :=
  match e with
  | ev_reset => set_st_reset b s
  | ev_pos => set_st_pos b s
  | ev_count => set_st_count b s
  end.

Definition load_event (e : event_ref) (s : state) : bool :=
  match e with
  | ev_reset => st_reset s
  | ev_pos => st_pos s
  | ev_count => st_count s
  end.

(** One iteration of the loop of [update_buttons], for button [i].  The
    accumulator carries the function's [static uint32_t next_check];
    [current_time] is the value [millis()] returned on entry and
    [digitalRead] the level of each pin (0 is LOW, a pressed button). *)
Definition update_buttons_iter (current_time : Z) (digitalRead : Z -> Z)
    (i : fin 3) (acc : Z * context) : Z * context :=
  let '(next_check, ct) := acc in
  let b := btn ct !!! i in
  let now_down := digitalRead (btn_pin b) =? 0 in
  if negb (eqb now_down (btn_was_down b)) then
    if next_check <? current_time then
      let ct := set_st (store_event (btn_event b) now_down (st ct)) ct in
      let ct :=
        set_btn (vinsert i (mk_button now_down (btn_event b) (btn_pin b))
                         (btn ct)) ct in
      (to_uint32 (current_time + BTN_DELAY), ct)
    else
      (next_check, set_st (store_event (btn_event b) false (st ct)) ct)
  else
    (next_check, set_st (store_event (btn_event b) false (st ct)) ct).

Definition update_buttons (current_time : Z) (digitalRead : Z -> Z)
    (next_check : Z) (ct : context) : Z * context :=
  foldl (fun acc i => update_buttons_iter current_time digitalRead i acc)
        (next_check, ct) [0%fin; 1%fin; 2%fin].

(** ** The serial line of the GPS module

    One turn of a [while(millis() < timeout)] loop either decodes a
    complete sentence ([Serial1.available() > 0 && gps.encode(...)] holds,
    and [gps] then reports a location and a satellite count) or it does
    not.  A [list poll] is the sequence of turns the loop gets before the
    clock passes [timeout]. *)
Record gps_fix : Type := mk_gps_fix {
  fix_lat : float;
  fix_lng : float;
  fix_satellites : Z
}.

Definition poll : Type := option gps_fix.

(** ** States *)

Definition four_dashes (ct : context) : context :=
  store_display 3%fin DASH_C
    (store_display 2%fin DASH_C
      (store_display 1%fin DASH_C
        (store_display 0%fin DASH_C ct))).

Definition main_handler (ct : context) : context * handler :=
  let ct := if negb (st_fetched (st ct)) then four_dashes ct
            else set_distance ct in
  if negb (st_reset (st ct)) && st_satcon (st ct) && negb (st_reached (st ct))
  then (ct, MAIN)
  else if st_reset (st ct) then (ct, FETCH)
  else if st_reached (st ct) then
    let ct := store_display 0%fin DASH_C ct in
    let ct := store_display 1%fin BLANK_C ct in
    let ct := store_display 2%fin BLANK_C ct in
    let ct := store_display 3%fin BLANK_C ct in
    let ct := set_input_pos 0 ct in
    (ct, SUBGOAL)
  else (ct, SATCON).

(** The [if(ct->st.pos)] block of [subgoal_handler]. *)
Definition subgoal_pos (ct : context) : option context :=
  if st_pos (st ct) then
    i ← index 4 (input_pos ct);
    let ct := if display_value ct !!! i =? DASH_C
              then store_display i BLANK_C ct else ct in
    let ct := set_input_pos (Z.rem (to_int (input_pos ct + 1)) 4) ct in
    j ← index 4 (input_pos ct);
    Some (store_display j DASH_C ct)
  else Some ct.

(** The [if(ct->st.count)] block of [subgoal_handler]. *)
Definition subgoal_count (ct : context) : option context :=
  if st_count (st ct) then
    i ← index 4 (input_pos ct);
    if display_value ct !!! i =? DASH_C
    then Some (store_display i 0 ct)
    else Some (store_display i
                 (Z.rem (to_int (display_value ct !!! i + 1)) 16) ct)
  else Some ct.

(** The counting loop of [subgoal_handler]: [match_c] is a [uint8_t]. *)
Definition count_matches (dv passwd : vec Z 4) : Z :=
  foldl (fun match_c i =>
           if dv !!! i =? passwd !!! i then to_uint8 (match_c + 1)
           else match_c)
        0 [0%fin; 1%fin; 2%fin; 3%fin].

Definition subgoal_handler (ct : context) : option (context * handler) :=
  ct ← subgoal_pos ct;
  ct ← subgoal_count ct;
  g ← index 10 (current_goal ct);
  let match_c := count_matches (display_value ct)
                               (goal_passwd (goals ct !!! g)) in
  let ct := set_st (set_st_passwd (match_c =? 4) (st ct)) ct in
  if negb (st_reset (st ct)) && negb (st_passwd (st ct))
     && st_satcon (st ct) && st_reached (st ct)
  then Some (ct, SUBGOAL)
  else if st_reset (st ct) then Some (ct, FETCH)
  else if st_passwd (st ct) then Some (ct, NEXT_GOAL)
  else if negb (st_satcon (st ct)) then Some (ct, SATCON)
  else Some (ct, MAIN).

(** The body of the polling loop of [fetch_handler], run on a decoded
    sentence. *)
Definition fetch_goal (fx : gps_fix) (ct : context) : context :=
  let g := mk_goal (deg_to_rad (fix_lat fx)) (deg_to_rad (fix_lng fx))
                   [# 0; 1; 2; 3] in
  let ct := set_goals (vinsert 0%fin g (goals ct)) ct in
  let ct := set_current_goal 0 ct in
  let ct := set_final_goal 0 ct in
  set_st (set_st_fetched true (st ct)) ct.

Fixpoint fetch_loop (polls : list poll) (ct : context) : context :=
  match polls with
  | [] => ct
  | None :: polls' => fetch_loop polls' ct
  | Some fx :: _ => fetch_goal fx ct
  end.

Definition fetch_handler (polls : list poll) (ct : context)
  : context * handler :=
  let ct := set_st (set_st_fetched false (st ct)) ct in
  let ct := fetch_loop polls ct in
  if st_reset (st ct) || negb (st_fetched (st ct)) then (ct, FETCH)
  else (ct, MAIN).

Definition next_goal_handler (ct : context) : context * handler :=
  let ct :=
    set_st (set_st_completed (current_goal ct =? final_goal ct) (st ct)) ct in
  if st_completed (st ct) then (four_dashes ct, COMPLETE)
  else (set_current_goal (to_int (current_goal ct + 1)) ct, MAIN).

Definition complete_handler (ct : context) : context * handler :=
  if negb (st_reset (st ct)) then (ct, COMPLETE)
  else (set_st (set_st_completed false (st ct)) ct, FETCH).

Definition satcon_handler (ct : context) : context * handler * list output :=
  if negb (st_satcon (st ct))
  then (ct, SATCON, [DigitalWrite LED_R true])
  else (ct, MAIN, [DigitalWrite LED_R true; DigitalWrite LED_R false]).

(** [handler_g.handle(&ct_g)]: the call through the function pointer.
    [polls] is what the serial line delivers while the handler runs; only
    [fetch_handler] reads it. *)
Definition handle (h : handler) (polls : list poll) (ct : context)
  : option (context * handler * list output) :=
  match h with
  | MAIN => Some (main_handler ct, [])
  | FETCH => Some (fetch_handler polls ct, [])
  | SATCON => Some (satcon_handler ct)
  | SUBGOAL => r ← subgoal_handler ct; Some (r, [])
  | NEXT_GOAL => Some (next_goal_handler ct, [])
  | COMPLETE => Some (complete_handler ct, [])
  end.

(** ** Input, output and the control loop

    The sketch calls [sin], [cos], [atan2] and [round] of the C library,
    converts a [double] to [int], and calls [encodeDigit] of the TM1637
    driver; none of them is part of the repository, so they are parameters
    here.  [sqrt] is the correctly rounded IEEE operation. *)
Section Sketch.

Variables sin cos round : float -> float.
Variable atan2 : float -> float -> float.
Variable double_to_int : float -> Z.
Variable encodeDigit : Z -> Z.

Definition EARTH_RADIUS : float := 6371e3%float.
Definition SEG_G : Z := 64.

(** The distance computed in [update_loc] between the goal at
    ([g_lt], [g_ln]) and the position ([lt], [ln]), all in radians. *)
Definition haversine (g_lt g_ln lt ln : float) : Z :=
  let d_phi := (lt - g_lt)%float in
  let d_lambda := (ln - g_ln)%float in
  let a := (sin (d_phi / 2) * sin (d_phi / 2)
            + sin (d_lambda / 2) * sin (d_lambda / 2)
              * cos g_lt * cos lt)%float in
  let c := (2 * atan2 (sqrt a) (sqrt (1 - a)))%float in
  double_to_int (round (c * EARTH_RADIUS)).

(** What one call of [update_loc] reads: [millis()] on entry (it
    initialises the static [last_update] on the first call), the turns of
    the polling loop, [millis()] when [last_update] is assigned, and
    [millis()] at the closing comparison. *)
Record loc_input : Type := mk_loc_input {
  loc_entry_time : Z;
  loc_polls : list poll;
  loc_fix_time : Z;
  loc_exit_time : Z
}.

(** The body of the polling loop of [update_loc], run on a decoded
    sentence; the first component is [last_update]. *)
Definition locate (fx : gps_fix) (fix_time last_update : Z) (ct : context)
  : option (Z * context) :=
  ct ← (if st_fetched (st ct) then
          g ← index 10 (current_goal ct);
          let d := haversine (goal_lt (goals ct !!! g))
                             (goal_ln (goals ct !!! g))
                             (deg_to_rad (fix_lat fx))
                             (deg_to_rad (fix_lng fx)) in
          let ct := set_distance_field d ct in
          Some (set_st (set_st_reached (d <=? DST_TOLERANCE) (st ct)) ct)
        else Some ct);
  if 3 <=? fix_satellites fx
  then Some (fix_time, set_st (set_st_satcon true (st ct)) ct)
  else Some (last_update, ct).

Fixpoint loc_loop (polls : list poll) (fix_time last_update : Z)
    (ct : context) : option (Z * context) :=
  match polls with
  | [] => Some (last_update, ct)
  | None :: polls' => loc_loop polls' fix_time last_update ct
  | Some fx :: _ => locate fx fix_time last_update ct
  end.

Definition update_loc (inp : loc_input) (last_update : option Z)
    (ct : context) : option (Z * context) :=
  let last_update := default (loc_entry_time inp) last_update in
  '(last_update, ct) ← loc_loop (loc_polls inp) (loc_fix_time inp)
                                 last_update ct;
  let ok := loc_exit_time inp <? to_uint32 (last_update + GPS_TIMEOUT) in
  Some (last_update, set_st (set_st_satcon ok (st ct)) ct).

(** [update_display] only reads the context; it returns the segments
    handed to the driver. *)
Definition update_display (ct : context) : output :=
  SetSegments
    (foldl (fun digits i =>
              let v := display_value ct !!! i in
              if v =? BLANK_C then vinsert i 0 digits
              else if v =? DASH_C then vinsert i SEG_G digits
              else vinsert i (to_uint8 (encodeDigit (to_uint8 v))) digits)
           [# 0; 0; 0; 0]
           [3%fin; 2%fin; 1%fin; 0%fin]).

(** The globals [ct_g] and [handler_g], and the two function statics. *)
Record machine : Type := mk_machine {
  ct_g : context;
  handler_g : handler;
  last_update : option Z;
  next_check : Z
}.

(** What one turn of [loop] reads from the outside world. *)
Record loop_input : Type := mk_loop_input {
  in_loc : loc_input;
  in_time : Z;
  in_pins : Z -> Z;
  in_polls : list poll
}.

(** [setup], without the configuration of pins and serial ports. *)
Definition setup (ct : context) : machine :=
  mk_machine (init_context ct) MAIN None 0.

Definition loop (inp : loop_input) (m : machine)
  : option (machine * list output) :=
  '(lu, ct) ← update_loc (in_loc inp) (last_update m) (ct_g m);
  let '(nc, ct) := update_buttons (in_time inp) (in_pins inp)
                                  (next_check m) ct in
  '(ct, h, out) ← handle (handler_g m) (in_polls inp) ct;
  Some (mk_machine ct h (Some lu) nc, out ++ [update_display ct]).

(** Successive turns of [loop]. *)
Fixpoint run (inputs : list loop_input) (m : machine) : option machine :=
  match inputs with
  | [] => Some m
  | inp :: inputs' => '(m', _) ← loop inp m; run inputs' m'
  end.

End Sketch.

(** ** Reference definitions and concrete contexts *)

(** The decimal digits of a distance, thousands first. *)
Definition decimal_digits (d : Z) : list Z :=
  [d / 1000 mod 10; d / 100 mod 10; d / 10 mod 10; d mod 10].

(** The rendering rule of the specification: a digit before the first
    non-zero digit is blank, every digit from the first non-zero one on is
    shown. *)
Fixpoint blank_leading (digits : list Z) : list Z :=
  match digits with
  | [] => []
  | x :: rest => if x =? 0 then BLANK_C :: blank_leading rest else x :: rest
  end.

(** The first sentence the serial line delivers, if any. *)
Fixpoint first_fix (polls : list poll) : poll :=
  match polls with
  | [] => None
  | None :: polls' => first_fix polls'
  | Some fx :: _ => Some fx
  end.

(** The global [ct_g] as the C runtime zero-initialises it.  The null
    [event] pointers are written [ev_reset]: [init_context] replaces all
    three before anything reads them. *)
Definition zero_context : context :=
  mk_context 0 [# 0; 0; 0; 0] 0 0 0
    (vreplicate 10 (mk_goal 0%float 0%float [# 0; 0; 0; 0]))
    (mk_state false false false false false false false false)
    (vreplicate 3 (mk_button false ev_reset 0)).

(** The context [setup] leaves behind. *)
Definition boot_context : context := init_context zero_context.

(** A decoded sentence: 48.5 N, 9.25 E, five satellites. *)
Definition here : gps_fix := mk_gps_fix 48.5%float 9.25%float 5.

(** The context after [fetch_handler] obtained the goal at [here]. *)
Definition fetched_context : context := fetch_goal here boot_context.

(** The digit [set_distance] extracts between the bounds [up] and [lo]. *)
Definition digit_of (d up lo : Z) : Z := to_int8 (Z.quot (Z.rem d up) lo).

(** The buttons as [init_context] wires them to the flags. *)
Definition btn_wired (ct : context) : Prop :=
  btn_event (btn ct !!! 0%fin) = ev_reset
  /\ btn_event (btn ct !!! 1%fin) = ev_pos
  /\ btn_event (btn ct !!! 2%fin) = ev_count.

(** A reading of the pins with the reset button at [level] and the other
    two buttons released. *)
Definition reset_pin (level : Z) : Z -> Z :=
  fun pin => if pin =? RESET then level else 1.

(** A reading of the pins with the cursor button at [level] and the other
    two buttons released. *)
Definition pos_pin (level : Z) : Z -> Z :=
  fun pin => if pin =? POS then level else 1.

(** A walk to the password prompt: reset is pressed, the goal is fetched
    at the current position, the next fix is at the goal, and the cursor
    button is pressed and held.  Times are in milliseconds since boot. *)
Definition walk : list loop_input :=
  [ mk_loop_input (mk_loc_input 0 [Some here] 10 20) 30 (reset_pin 0) [];
    mk_loop_input (mk_loc_input 40 [None] 50 60) 200 (reset_pin 1)
                  [None; Some here];
    mk_loop_input (mk_loc_input 300 [Some here] 310 320) 330 (reset_pin 1) [];
    mk_loop_input (mk_loc_input 400 [] 410 420) 430 (pos_pin 0) [];
    mk_loop_input (mk_loc_input 500 [] 510 520) 530 (pos_pin 0) [] ].

(** [run] on [walk], with stand-ins for the library functions under which
    every distance comes out as 0. *)
Definition run_walk : option machine :=
  run (fun x => x) (fun x => x) (fun x => x) (fun y _ => y) (fun _ => 0)
      (fun d => d) walk (setup zero_context).

(** ** Further reference definitions *)

(** The position after [i] on the display, circularly. *)
Definition fin4_next (i : fin 4) : fin 4 :=
  match fin_to_nat i with
  | 0%nat => 1%fin
  | 1%nat => 2%fin
  | 2%nat => 3%fin
  | _ => 0%fin
  end.

(** [last_update] as one call of [update_loc] leaves it: refreshed by the
    first decoded sentence when it reports three satellites or more. *)
Definition refreshed (inp : loc_input) (last_update : option Z) : Z :=
  match first_fix (loc_polls inp) with
  | Some fx =>
      if 3 <=? fix_satellites fx then loc_fix_time inp
      else default (loc_entry_time inp) last_update
  | None => default (loc_entry_time inp) last_update
  end.

(** A symbol the display encoder is meant for: a hex digit, the blank or
    the dash. *)
Definition valid_symbol (z : Z) : Prop :=
  0 <= z <= 15 \/ z = BLANK_C \/ z = DASH_C.

(** What [update_buttons] may change: the button records and the three
    edge flags.  Every other field of [ct'] is that of [ct]. *)
Definition same_but_buttons (ct ct' : context) : Prop :=
  ct' = mk_context (input_pos ct) (display_value ct) (distance ct)
          (current_goal ct) (final_goal ct) (goals ct)
          (mk_state (st_satcon (st ct)) (st_reached (st ct))
             (st_passwd (st ct)) (st_fetched (st ct))
             (st_completed (st ct)) (st_reset (st ct')) (st_pos (st ct'))
             (st_count (st ct')))
          (btn ct').

(** The invariant of the sketch with its single fetched goal, for the
    context [ct] on which the handler [h] runs next: the current goal is
    the first one; the final goal is the first one too, or no goal was
    ever fetched and then the machine is in none of the states behind a
    reached location; [reached] is only set with a distance inside the
    tolerance; the cursor is on the display. *)
Definition sane (h : handler) (ct : context) : Prop :=
  current_goal ct = 0
  /\ (final_goal ct = 0
      \/ (final_goal ct = -1 /\ st_reached (st ct) = false
          /\ st_fetched (st ct) = false
          /\ (h = MAIN \/ h = FETCH \/ h = SATCON)))
  /\ (st_reached (st ct) = true -> distance ct <= DST_TOLERANCE)
  /\ 0 <= input_pos ct <= 3.

(** The level of the LED pin after the writes in [outs], when it was
    [led] before. *)
Definition led_after (led : bool) (outs : list output) : bool :=
  foldl (fun l o =>
           match o with
           | DigitalWrite pin level => if pin =? LED_R then level else l
           | SetSegments _ => l
           end) led outs.

Section Observed.

Variables sin cos round : float -> float.
Variable atan2 : float -> float -> float.
Variable double_to_int : float -> Z.
Variable encodeDigit : Z -> Z.

(** Successive turns of [loop], following the LED. *)
Fixpoint run_led (inputs : list loop_input) (m : machine) (led : bool)
  : option (machine * bool) :=
  match inputs with
  | [] => Some (m, led)
  | inp :: inputs' =>
      '(m', out) ← loop sin cos round atan2 double_to_int encodeDigit inp m;
      run_led inputs' m' (led_after led out)
  end.

End Observed.

(** Two turns without a sentence from the receiver, five and nine seconds
    after boot, with no button pressed. *)
Definition silence : list loop_input :=
  [ mk_loop_input (mk_loc_input 0 [] 0 5000) 5000 (fun _ => 1) [];
    mk_loop_input (mk_loc_input 6000 [] 6000 9000) 9000 (fun _ => 1) [] ].

(** A turn of the loop at time [t], with the pins reading [pins] and a
    sentence from [here] on the serial line whenever it is polled. *)
Definition turn (t : Z) (pins : Z -> Z) : loop_input :=
  mk_loop_input (mk_loc_input t [Some here] t t) t pins [None; Some here].

(** The button at [pin] pressed at time [t] and released 200 ms later. *)
Definition tap (pin t : Z) : list loop_input :=
  [ turn t (fun p => if p =? pin then 0 else 1);
    turn (t + 200) (fun _ => 1) ].

(** One tap every 400 ms, starting at time [t]. *)
Fixpoint taps (pins : list Z) (t : Z) : list loop_input :=
  match pins with
  | [] => []
  | pin :: pins' => tap pin t ++ taps pins' (t + 400)
  end.

(** A whole game at the goal: reset fetches the goal at [here], the goal
    is reached at once, and the password 0, 1, 2, 3 is entered; the run
    ends in the turn in which the last digit is typed.  [LED_R] is no
    button: a tap on it is a pause. *)
Definition game : list loop_input :=
  taps [RESET; LED_R; COUNT; POS; COUNT; COUNT; POS; COUNT; COUNT; COUNT;
        POS; COUNT; COUNT; COUNT] 1000
  ++ [turn 6600 (fun p => if p =? COUNT then 0 else 1)].

(** [update_loc], [loop] and [run] with stand-ins for the library
    functions under which every distance comes out as 0. *)
Definition update_loc0 := update_loc (fun x => x) (fun x => x) (fun x => x)
                            (fun y _ => y) (fun _ => 0).
Definition loop0 := loop (fun x => x) (fun x => x) (fun x => x)
                      (fun y _ => y) (fun _ => 0) (fun d => d).
Definition run0 := run (fun x => x) (fun x => x) (fun x => x)
                     (fun y _ => y) (fun _ => 0) (fun d => d).

(** ** The C library at the points of the distance examples *)

(** A double that is neither an infinity nor a NaN. *)
Definition finite (x : float) : bool :=
  match FloatOps.Prim2SF x with
  | SpecFloat.S754_zero _ | SpecFloat.S754_finite _ _ _ => true
  | _ => false
  end.

(** C's [round]: to the nearest integer, halfway cases away from zero.
    A double with a fractional part is below 2^52, so the integer is
    converted back exactly. *)
Definition c_round (x : float) : float :=
  match FloatOps.Prim2SF x with
  | SpecFloat.S754_finite s m e =>
      if 0 <=? e then x
      else
        let n := Z.shiftl (Z.pos m) e in
        let n := if Z.testbit (Z.pos m) (- e - 1) then n + 1 else n in
        let y := of_uint63 (Uint63.of_Z n) in
        if s then (- y)%float else y
  | _ => x
  end.

(** The cast [(int) x]: truncation towards zero.  C defines it only when
    the truncated value fits an [int]; an infinity or a NaN is given 0
    here. *)
Definition c_double_to_int (x : float) : Z :=
  match FloatOps.Prim2SF x with
  | SpecFloat.S754_finite s m e =>
      SpecFloat.cond_Zopp s (Z.shiftl (Z.pos m) e)
  | _ => 0
  end.

(** A function of one double given by a table, NaN off the table. *)
Fixpoint table1 (tab : list (float * float)) (x : float) : float :=
  match tab with
  | [] => nan
  | (k, v) :: tab' => if Leibniz.eqb k x then v else table1 tab' x
  end.

(** A function of two doubles given by a table, NaN off the table. *)
Fixpoint table2 (tab : list (float * float * float)) (y x : float)
  : float :=
  match tab with
  | [] => nan
  | (ky, kx, v) :: tab' =>
      if Leibniz.eqb ky y && Leibniz.eqb kx x then v else table2 tab' y x
  end.

(** A second decoded sentence: 48.50132845368892 N, 9.25851454681636 E,
    five satellites, about 644.5 m from [here]. *)
Definition there : gps_fix :=
  mk_gps_fix 0x1.8402b87e092f7p+5%float 0x1.2845c04c83ba9p+3%float 5.

(** [sin], [cos] and [atan2] of the C library at the arguments that the
    distances between [here] and [there] pass to them: the correctly
    rounded doubles, which are the values glibc returns.  The functions
    are odd and even as the library's are; off the table they are NaN,
    and no theorem looks there. *)
Definition libm_sin : float -> float :=
  table1 [ (0, 0);
           (0x1.84fea491f8000p-17, 0x1.84fea491d293bp-17);
           (- 0x1.84fea491f8000p-17, - 0x1.84fea491d293bp-17);
           (0x1.37a6b58d50400p-14, 0x1.37a6b5888093dp-14);
           (- 0x1.37a6b58d50400p-14, - 0x1.37a6b5888093dp-14) ]%float.

Definition libm_cos : float -> float :=
  table1 [ (0x1.b16670e05364ap-1, 0x1.5342ef598564fp-1);
           (0x1.b1697add9c889p-1, 0x1.5340a8aa02d3bp-1) ]%float.

Definition libm_atan2 : float -> float -> float :=
  table2 [ (0, 1, 0);
           (0x1.a84d58f95d577p-15, 0x1.fffffff502fecp-1,
            0x1.a84d58fc6666dp-15);
           (0x1.a84d58f95d578p-15, 0x1.fffffff502fecp-1,
            0x1.a84d58fc6666ep-15) ]%float.

(** The distance of [update_loc] from a goal at the sentence [g] to a
    position at the sentence [p], both in degrees, with this library. *)
Definition distance_between (g p : gps_fix) : Z :=
  haversine libm_sin libm_cos c_round libm_atan2 c_double_to_int
    (deg_to_rad (fix_lat g)) (deg_to_rad (fix_lng g))
    (deg_to_rad (fix_lat p)) (deg_to_rad (fix_lng p)).

(** ** Machine integers: facts *)

Lemma to_int8_small z : -128 <= z <= 127 -> to_int8 z = z.
Proof.
  intros Hz. unfold to_int8, wrap_signed.
  change (2 ^ (8 - 1)) with 128. change (2 ^ 8) with 256.
  rewrite Z.mod_small; lia.
Qed.

Lemma to_int_small z : -2147483648 <= z <= INT_MAX -> to_int z = z.
Proof.
  unfold INT_MAX. intros Hz. unfold to_int, wrap_signed.
  change (2 ^ (32 - 1)) with 2147483648. change (2 ^ 32) with 4294967296.
  rewrite Z.mod_small; lia.
Qed.

Lemma to_uint8_small z : 0 <= z <= 255 -> to_uint8 z = z.
Proof.
  intros Hz. unfold to_uint8, wrap_unsigned. change (2 ^ 8) with 256.
  apply Z.mod_small; lia.
Qed.

Lemma to_uint32_small z : 0 <= z <= UINT32_MAX -> to_uint32 z = z.
Proof.
  unfold UINT32_MAX. intros Hz. unfold to_uint32, wrap_unsigned.
  change (2 ^ 32) with 4294967296. apply Z.mod_small; lia.
Qed.

(** ** Array indexing: facts *)

Lemma fin_of_nat_Some n i (k : fin n) :
  fin_of_nat n i = Some k -> fin_to_nat k = i.
Proof.
  revert i k. induction n as [|n IH]; intros i k; simpl; [discriminate|].
  destruct i as [|i].
  - intros [= <-]. reflexivity.
  - destruct (fin_of_nat n i) as [k'|] eqn:E; simpl; [|discriminate].
    intros [= <-]. simpl. f_equal. now apply IH.
Qed.

Lemma fin_of_nat_lt n i : (i < n)%nat -> is_Some (fin_of_nat n i).
Proof.
  revert i. induction n as [|n IH]; intros i Hi; [lia|].
  destruct i as [|i]; simpl; [eauto|].
  destruct (IH i) as [k Hk]; [lia|]. rewrite Hk. simpl. eauto.
Qed.

Lemma index_Some n z (k : fin n) :
  index n z = Some k -> 0 <= z /\ Z.of_nat (fin_to_nat k) = z.
Proof.
  unfold index. destruct (0 <=? z) eqn:E; [|discriminate].
  intros Hk. apply fin_of_nat_Some in Hk. lia.
Qed.

Lemma index_bounds n z (k : fin n) :
  index n z = Some k -> 0 <= z < Z.of_nat n.
Proof.
  intros E. apply index_Some in E. pose proof (fin_to_nat_lt k). lia.
Qed.

Lemma index_in_range n z :
  0 <= z < Z.of_nat n -> is_Some (index n z).
Proof.
  intros Hz. unfold index.
  destruct (0 <=? z) eqn:E; [|lia]. apply fin_of_nat_lt. lia.
Qed.

Lemma index_out_of_range n z :
  z < 0 \/ Z.of_nat n <= z -> index n z = None.
Proof.
  intros Hz. destruct (index n z) as [k|] eqn:E; [|reflexivity].
  apply index_bounds in E. lia.
Qed.

(** ** Distance formatting *)

(** The loop of [set_distance] unrolled: it writes the four positions and
    nothing else. *)
Lemma set_distance_unfold ct :
  let d := distance ct in
  let d3 := digit_of d 10000 1000 in
  let d2 := digit_of d 1000 100 in
  let d1 := digit_of d 100 10 in
  let d0 := digit_of d 10 1 in
  let e3 := 0 <? d3 in
  let e2 := e3 || (0 <? d2) in
  let e1 := e2 || (0 <? d1) in
  let e0 := e1 || (0 <? d0) in
  set_distance ct =
    set_display_value
      [# if e3 then d3 else BLANK_C; if e2 then d2 else BLANK_C;
         if e1 then d1 else BLANK_C; if e0 then d0 else BLANK_C ] ct.
Proof.
  destruct ct as [ip dv dist cg fg gs s b].
  inv_vec dv; intros a1 a2 a3 a4.
  unfold set_distance.
  cbn [foldl set_distance_iter snd fst dig_enable upper lower negb].
  change (to_int (Z.quot 1000 10)) with 100.
  change (to_int (Z.quot 100 10)) with 10.
  change (to_int (Z.quot 10 10)) with 1.
  unfold store_display, set_display_value.
  cbn [distance display_value input_pos current_goal final_goal goals st btn
       vinsert].
  fold (digit_of dist 10000 1000). fold (digit_of dist 1000 100).
  fold (digit_of dist 100 10). fold (digit_of dist 10 1).
  destruct (0 <? digit_of dist 10000 1000), (0 <? digit_of dist 1000 100),
    (0 <? digit_of dist 100 10), (0 <? digit_of dist 10 1); reflexivity.
Qed.

(** [set_distance] changes the display and no other field. *)
Lemma set_distance_frame ct :
  set_distance ct = set_display_value (display_value (set_distance ct)) ct.
Proof. rewrite set_distance_unfold. reflexivity. Qed.

(** On a non-negative distance the truncating operators of C extract the
    decimal digits, and no digit leaves the range of [int8_t]. *)
Lemma digit_of_nonneg d :
  0 <= d ->
  digit_of d 10000 1000 = d mod 10000 / 1000
  /\ digit_of d 1000 100 = d / 100 mod 10
  /\ digit_of d 100 10 = d / 10 mod 10
  /\ digit_of d 10 1 = d mod 10.
Proof.
  intros Hd. unfold digit_of.
  repeat split;
    (rewrite Z.rem_mod_nonneg by lia);
    (rewrite Z.quot_div_nonneg by (try apply Z.mod_pos_bound; lia));
    (rewrite to_int8_small; Z.div_mod_to_equations; lia).
Qed.

Lemma blank_leading_digits x3 x2 x1 x0 :
  0 <= x3 -> 0 <= x2 -> 0 <= x1 -> 0 <= x0 ->
  let e3 := 0 <? x3 in
  let e2 := e3 || (0 <? x2) in
  let e1 := e2 || (0 <? x1) in
  let e0 := e1 || (0 <? x0) in
  [if e3 then x3 else BLANK_C; if e2 then x2 else BLANK_C;
   if e1 then x1 else BLANK_C; if e0 then x0 else BLANK_C]
  = blank_leading [x3; x2; x1; x0].
Proof.
  intros H3 H2 H1 H0. cbn [blank_leading].
  destruct (Z.ltb_spec 0 x3), (Z.eqb_spec x3 0); try lia; cbn [orb];
  destruct (Z.ltb_spec 0 x2), (Z.eqb_spec x2 0); try lia; cbn [orb];
  destruct (Z.ltb_spec 0 x1), (Z.eqb_spec x1 0); try lia; cbn [orb];
  destruct (Z.ltb_spec 0 x0), (Z.eqb_spec x0 0); try lia; cbn [orb];
  reflexivity.
Qed.

(** C1 (amended).  For a distance between 0 and 9999, [set_distance]
    renders every digit before the first non-zero digit as blank and shows
    every digit from the first non-zero one on.  In particular 42 is shown
    as blank, blank, 4, 2 and 7000 as 7, 0, 0, 0; the distance 0 has no
    non-zero digit and is shown as four blanks. *)
Theorem set_distance_blank_leading ct :
  0 <= distance ct <= 9999 ->
  vec_to_list (display_value (set_distance ct))
    = blank_leading (decimal_digits (distance ct))
  /\ (distance ct = 0 ->
      display_value (set_distance ct)
        = [# BLANK_C; BLANK_C; BLANK_C; BLANK_C])
  /\ (distance ct = 42 ->
      display_value (set_distance ct) = [# BLANK_C; BLANK_C; 4; 2])
  /\ (distance ct = 7000 ->
      display_value (set_distance ct) = [# 7; 0; 0; 0]).
Proof.
  intros Hd. rewrite set_distance_unfold. cbv zeta.
  repeat split; try (intros ->; reflexivity).
  destruct (digit_of_nonneg (distance ct)) as (E3 & E2 & E1 & E0); [lia|].
  rewrite E3, E2, E1, E0. unfold decimal_digits.
  replace (distance ct mod 10000 / 1000) with (distance ct / 1000 mod 10)
    by (Z.div_mod_to_equations; lia).
  cbn [display_value set_display_value vec_to_list].
  apply blank_leading_digits; Z.div_mod_to_equations; lia.
Qed.

Lemma set_distance_blank_leading_witness :
  let ct := set_distance_field 305 boot_context in
  0 <= distance ct <= 9999
  /\ vec_to_list (display_value (set_distance ct)) = [BLANK_C; 3; 0; 5].
Proof.
  cbv zeta.
  assert (0 <= distance (set_distance_field 305 boot_context) <= 9999) as H
    by (vm_compute; split; discriminate).
  split; [exact H|].
  apply (set_distance_blank_leading (set_distance_field 305 boot_context) H).
Defined.

(** C1, as the specification states it, fails at the distance 0: the units
    position is blank, not the digit 0. *)
Lemma set_distance_zero_is_blank :
  display_value (set_distance (set_distance_field 0 boot_context))
    <> [# BLANK_C; BLANK_C; BLANK_C; 0].
Proof. vm_compute. discriminate. Qed.

(** ** The handlers *)

Lemma store_display_all a b c d ct :
  store_display 3%fin d
    (store_display 2%fin c (store_display 1%fin b (store_display 0%fin a ct)))
  = set_display_value [# a; b; c; d] ct.
Proof.
  destruct ct as [ip dv dist cg fg gs s bt].
  inv_vec dv; intros a1 a2 a3 a4. reflexivity.
Qed.

Lemma four_dashes_eq ct :
  four_dashes ct = set_display_value [# DASH_C; DASH_C; DASH_C; DASH_C] ct.
Proof. apply store_display_all. Qed.

(** [main_handler] with the refresh of the display factored out; the
    tests are in the order of the source. *)
Lemma main_handler_refresh ct :
  let shown :=
    if st_fetched (st ct) then set_distance ct
    else set_display_value [# DASH_C; DASH_C; DASH_C; DASH_C] ct in
  main_handler ct =
    if negb (st_reset (st ct)) && st_satcon (st ct)
       && negb (st_reached (st ct))
    then (shown, MAIN)
    else if st_reset (st ct) then (shown, FETCH)
    else if st_reached (st ct) then
      (set_input_pos 0
         (set_display_value [# DASH_C; BLANK_C; BLANK_C; BLANK_C] shown),
       SUBGOAL)
    else (shown, SATCON).
Proof.
  cbv zeta. unfold main_handler.
  rewrite four_dashes_eq, set_distance_frame.
  set (shown := if negb (st_fetched (st ct)) then _ else _).
  assert (st shown = st ct) as ->
    by (subst shown; destruct (st_fetched _); reflexivity).
  assert ((if st_fetched (st ct)
           then set_display_value (display_value (set_distance ct)) ct
           else set_display_value [# DASH_C; DASH_C; DASH_C; DASH_C] ct)
          = shown) as ->
    by (subst shown; destruct (st_fetched _); reflexivity).
  rewrite store_display_all. reflexivity.
Qed.

(** C2.  [main_handler] first refreshes the display: four dashes when no
    goals are fetched, the formatted distance otherwise.  It then moves by
    priority: reset pressed gives FETCH; else location reached sets the
    cursor to 0, shows a dash followed by three blanks and gives SUBGOAL;
    else a lost satellite connection gives SATCON; otherwise it stays in
    MAIN. *)
Theorem main_handler_priority ct :
  let shown :=
    if st_fetched (st ct) then set_distance ct
    else set_display_value [# DASH_C; DASH_C; DASH_C; DASH_C] ct in
  main_handler ct =
    if st_reset (st ct) then (shown, FETCH)
    else if st_reached (st ct) then
      (set_input_pos 0
         (set_display_value [# DASH_C; BLANK_C; BLANK_C; BLANK_C] shown),
       SUBGOAL)
    else if negb (st_satcon (st ct)) then (shown, SATCON)
    else (shown, MAIN).
Proof.
  pose proof (main_handler_refresh ct) as E. cbv zeta in E |- *.
  rewrite E.
  destruct (st_reset (st ct)) eqn:Hreset;
    destruct (st_reached (st ct)) eqn:Hreached;
    destruct (st_satcon (st ct)) eqn:Hsatcon;
    reflexivity.
Qed.

(** C10.  [satcon_handler] returns the context it was given: it only
    writes the LED pin.  [complete_handler] returns the context it was
    given, with [completed] cleared when reset was pressed.  Display,
    cursor, distance, goal indices and goals are those of the input in both
    cases. *)
Theorem satcon_complete_frame ct :
  let after_satcon := fst (fst (satcon_handler ct)) in
  let after_complete := fst (complete_handler ct) in
  after_satcon = ct
  /\ Forall (fun o => exists level, o = DigitalWrite LED_R level)
            (snd (satcon_handler ct))
  /\ after_complete
     = (if st_reset (st ct) then set_st (set_st_completed false (st ct)) ct
        else ct)
  /\ display_value after_complete = display_value ct
  /\ input_pos after_complete = input_pos ct
  /\ distance after_complete = distance ct
  /\ current_goal after_complete = current_goal ct
  /\ final_goal after_complete = final_goal ct
  /\ goals after_complete = goals ct
  /\ btn after_complete = btn ct
  /\ st after_complete
     = set_st_completed (st_completed (st ct) && negb (st_reset (st ct)))
                        (st ct).
Proof.
  cbv zeta. unfold satcon_handler, complete_handler.
  destruct ct as [ip dv dist cg fg gs [s1 s2 s3 s4 s5 s6 s7 s8] bt].
  cbn [st st_satcon st_reset negb].
  destruct s1, s5, s6; cbn;
    repeat split; repeat constructor; eauto.
Qed.

(** *** SUBGOAL *)

(** The counting loop finds four matches exactly when display and
    password agree at every position. *)
Lemma count_matches_4 (dv pw : vec Z 4) :
  (count_matches dv pw =? 4) = true <-> dv = pw.
Proof.
  inv_vec dv; intros a0 a1 a2 a3. inv_vec pw; intros b0 b1 b2 b3.
  unfold count_matches. cbn [foldl].
  change ([# a0; a1; a2; a3] !!! 0%fin) with a0.
  change ([# a0; a1; a2; a3] !!! 1%fin) with a1.
  change ([# a0; a1; a2; a3] !!! 2%fin) with a2.
  change ([# a0; a1; a2; a3] !!! 3%fin) with a3.
  change ([# b0; b1; b2; b3] !!! 0%fin) with b0.
  change ([# b0; b1; b2; b3] !!! 1%fin) with b1.
  change ([# b0; b1; b2; b3] !!! 2%fin) with b2.
  change ([# b0; b1; b2; b3] !!! 3%fin) with b3.
  split.
  - destruct (Z.eqb_spec a0 b0), (Z.eqb_spec a1 b1), (Z.eqb_spec a2 b2),
      (Z.eqb_spec a3 b3); subst; vm_compute; congruence.
  - intros E.
    pose proof (f_equal (fun v : vec Z 4 => v !!! 0%fin) E) as E0.
    pose proof (f_equal (fun v : vec Z 4 => v !!! 1%fin) E) as E1.
    pose proof (f_equal (fun v : vec Z 4 => v !!! 2%fin) E) as E2.
    pose proof (f_equal (fun v : vec Z 4 => v !!! 3%fin) E) as E3.
    cbn in E0, E1, E2, E3. subst. rewrite !Z.eqb_refl. reflexivity.
Qed.

(** The cursor block: defined for a cursor on the display; it rewrites
    cursor and display only, and advances the cursor circularly when the
    cursor button fired. *)
Lemma subgoal_pos_defined ct :
  0 <= input_pos ct <= 3 ->
  exists ct1,
    subgoal_pos ct = Some ct1
    /\ ct1 = set_input_pos (input_pos ct1)
               (set_display_value (display_value ct1) ct)
    /\ input_pos ct1
       = (if st_pos (st ct) then (input_pos ct + 1) mod 4 else input_pos ct)
    /\ (st_pos (st ct) = false -> ct1 = ct).
Proof.
  intros Hip. unfold subgoal_pos.
  destruct (st_pos (st ct)) eqn:Hpos.
  2:{ exists ct. destruct ct. repeat split. }
  destruct (index_in_range 4 (input_pos ct)) as [i Hi]; [lia|].
  rewrite Hi. cbn [mbind option_bind].
  set (ct2 := if _ =? DASH_C then _ else ct).
  assert (input_pos ct2 = input_pos ct) as Hip2
    by (subst ct2; destruct (_ =? DASH_C); reflexivity).
  cbn [input_pos set_input_pos]. rewrite Hip2.
  rewrite to_int_small by (unfold INT_MAX; lia).
  rewrite Z.rem_mod_nonneg by lia.
  destruct (index_in_range 4 ((input_pos ct + 1) mod 4)) as [j Hj];
    [change (Z.of_nat 4) with 4; Z.div_mod_to_equations; lia|].
  rewrite Hj. cbn [mbind option_bind].
  eexists. split; [reflexivity|].
  subst ct2. destruct ct as [ip dv dist cg fg gs s bt].
  destruct (_ =? DASH_C); repeat split; discriminate.
Qed.

(** The increment block: defined for a cursor on the display; it rewrites
    the display only. *)
Lemma subgoal_count_defined ct :
  0 <= input_pos ct <= 3 ->
  exists ct1,
    subgoal_count ct = Some ct1
    /\ ct1 = set_display_value (display_value ct1) ct
    /\ (st_count (st ct) = false -> ct1 = ct).
Proof.
  intros Hip. unfold subgoal_count.
  destruct (st_count (st ct)) eqn:Hcount.
  2:{ exists ct. destruct ct. repeat split. }
  destruct (index_in_range 4 (input_pos ct)) as [i Hi]; [lia|].
  rewrite Hi. cbn [mbind option_bind].
  destruct (_ =? DASH_C); (eexists; split; [reflexivity|]);
    destruct ct; repeat split; discriminate.
Qed.

Lemma edits_fields ct ct1 :
  ct1 = set_input_pos (input_pos ct1)
          (set_display_value (display_value ct1) ct) ->
  distance ct1 = distance ct /\ current_goal ct1 = current_goal ct
  /\ final_goal ct1 = final_goal ct /\ goals ct1 = goals ct
  /\ st ct1 = st ct /\ btn ct1 = btn ct.
Proof. intros E. rewrite E. repeat split. Qed.

(** The two blocks in sequence. *)
Lemma subgoal_edits_defined ct :
  0 <= input_pos ct <= 3 ->
  exists ct2,
    (subgoal_pos ct ≫= subgoal_count) = Some ct2
    /\ ct2 = set_input_pos (input_pos ct2)
               (set_display_value (display_value ct2) ct)
    /\ input_pos ct2
       = (if st_pos (st ct) then (input_pos ct + 1) mod 4 else input_pos ct)
    /\ (st_pos (st ct) = false -> st_count (st ct) = false -> ct2 = ct).
Proof.
  intros Hip.
  destruct (subgoal_pos_defined ct Hip) as (ct1 & E1 & F1 & P1 & N1).
  destruct (edits_fields _ _ F1) as (_ & _ & _ & _ & S1 & _).
  assert (0 <= input_pos ct1 <= 3) as Hip1.
  { rewrite P1. destruct (st_pos (st ct)); [|lia].
    Z.div_mod_to_equations; lia. }
  destruct (subgoal_count_defined ct1 Hip1) as (ct2 & E2 & F2 & N2).
  exists ct2. rewrite E1. cbn [mbind option_bind]. rewrite E2.
  split; [reflexivity|].
  assert (input_pos ct2 = input_pos ct1) as Hip2 by (rewrite F2; reflexivity).
  repeat split.
  - rewrite F2 at 1. rewrite F1 at 1. rewrite Hip2. reflexivity.
  - rewrite Hip2. exact P1.
  - intros Hp Hc. rewrite N2 by (rewrite S1; exact Hc). auto.
Qed.

Lemma subgoal_handler_unfold ct :
  subgoal_handler ct =
    (ct2 ← subgoal_pos ct ≫= subgoal_count;
     g ← index 10 (current_goal ct2);
     let ok := count_matches (display_value ct2)
                             (goal_passwd (goals ct2 !!! g)) =? 4 in
     let ct3 := set_st (set_st_passwd ok (st ct2)) ct2 in
     Some (ct3,
           if st_reset (st ct2) then FETCH
           else if ok then NEXT_GOAL
           else if negb (st_satcon (st ct2)) then SATCON
           else if st_reached (st ct2) then SUBGOAL
           else MAIN)).
Proof.
  unfold subgoal_handler.
  destruct (subgoal_pos ct) as [ct1|]; [|reflexivity]. cbn [mbind option_bind].
  destruct (subgoal_count ct1) as [ct2|]; [|reflexivity].
  cbn [mbind option_bind].
  destruct (index 10 (current_goal ct2)) as [g|]; [|reflexivity].
  cbn [mbind option_bind]. cbv zeta.
  destruct ct2 as [ip dv dist cg fg gs [s1 s2 s3 s4 s5 s6 s7 s8] bt].
  cbn [st set_st set_st_passwd st_reset st_passwd st_satcon st_reached
       display_value goals].
  destruct (count_matches _ _ =? 4), s1, s2, s6; reflexivity.
Qed.

(** [subgoal_handler] on a context whose cursor is on the display and
    whose current goal is in the goal array: it returns, and its result is
    built from the context [ct2] the two edit blocks leave. *)
Lemma subgoal_handler_result ct g :
  0 <= input_pos ct <= 3 ->
  index 10 (current_goal ct) = Some g ->
  exists ct2,
    (subgoal_pos ct ≫= subgoal_count) = Some ct2
    /\ ct2 = set_input_pos (input_pos ct2)
               (set_display_value (display_value ct2) ct)
    /\ subgoal_handler ct
       = (let ok := count_matches (display_value ct2)
                                  (goal_passwd (goals ct !!! g)) =? 4 in
          Some (set_st (set_st_passwd ok (st ct)) ct2,
                if st_reset (st ct) then FETCH
                else if ok then NEXT_GOAL
                else if negb (st_satcon (st ct)) then SATCON
                else if st_reached (st ct) then SUBGOAL
                else MAIN)).
Proof.
  intros Hip Hg. rewrite subgoal_handler_unfold.
  destruct (subgoal_edits_defined ct Hip) as (ct2 & E & F & _).
  destruct (edits_fields _ _ F) as (_ & Hcg & _ & Hgs & Hst & _).
  exists ct2. split; [exact E|]. split; [exact F|].
  rewrite E. cbn [mbind option_bind]. rewrite Hcg, Hg.
  cbn [mbind option_bind]. rewrite Hgs, Hst. reflexivity.
Qed.

(** C3.  On a context whose cursor is on the display and whose current
    goal is in the goal array, [subgoal_handler] sets [passwd] to true
    exactly when the four displayed symbols equal the four digits of the
    current goal's password, and moves by priority: reset pressed gives
    FETCH; else a correct password gives NEXT_GOAL; else a lost satellite
    connection gives SATCON; else it stays in SUBGOAL while the location is
    reached and falls through to MAIN when it is not. *)
Theorem subgoal_handler_priority ct g :
  0 <= input_pos ct <= 3 ->
  index 10 (current_goal ct) = Some g ->
  exists ct',
    subgoal_handler ct
      = Some (ct', if st_reset (st ct) then FETCH
                   else if st_passwd (st ct') then NEXT_GOAL
                   else if negb (st_satcon (st ct)) then SATCON
                   else if st_reached (st ct) then SUBGOAL
                   else MAIN)
    /\ (st_passwd (st ct') = true
        <-> display_value ct' = goal_passwd (goals ct' !!! g))
    /\ st ct' = set_st_passwd (st_passwd (st ct')) (st ct)
    /\ goals ct' = goals ct
    /\ current_goal ct' = current_goal ct.
Proof.
  intros Hip Hg.
  destruct (subgoal_handler_result ct g Hip Hg) as (ct2 & _ & F & E).
  destruct (edits_fields _ _ F) as (_ & Hcg & _ & Hgs & _ & _).
  cbv zeta in E. rewrite E.
  set (ok := count_matches _ _ =? 4).
  exists (set_st (set_st_passwd ok (st ct)) ct2).
  assert (st (set_st (set_st_passwd ok (st ct)) ct2)
          = set_st_passwd ok (st ct)) as -> by (destruct ct2; reflexivity).
  assert (display_value (set_st (set_st_passwd ok (st ct)) ct2)
          = display_value ct2) as -> by (destruct ct2; reflexivity).
  assert (goals (set_st (set_st_passwd ok (st ct)) ct2) = goals ct)
    as -> by (rewrite <- Hgs; destruct ct2; reflexivity).
  assert (current_goal (set_st (set_st_passwd ok (st ct)) ct2)
          = current_goal ct) as ->
    by (rewrite <- Hcg; destruct ct2; reflexivity).
  cbn [st_passwd set_st_passwd].
  split; [reflexivity|]. split; [apply count_matches_4|].
  repeat split.
Qed.

Lemma subgoal_handler_priority_witness :
  let ct := set_input_pos 3
              (set_display_value [# 0; 1; 2; 2]
                 (set_st (set_st_count true (st fetched_context))
                         fetched_context)) in
  exists ct',
    subgoal_handler ct = Some (ct', NEXT_GOAL)
    /\ (st_passwd (st ct') = true
        <-> display_value ct' = goal_passwd (goals ct' !!! 0%fin))
    /\ st ct' = set_st_passwd (st_passwd (st ct')) (st ct)
    /\ goals ct' = goals ct
    /\ current_goal ct' = current_goal ct.
Proof.
  cbv zeta.
  match goal with
  | |- context [subgoal_handler ?c] =>
      destruct (subgoal_handler_priority c 0%fin) as (ct' & E & H);
        [vm_compute; split; discriminate | reflexivity | ]
  end.
  exists ct'. split; [|exact H].
  rewrite E. vm_compute in E. injection E as E _. subst ct'. reflexivity.
Defined.

(** The handler when only the increment button fired. *)
Lemma subgoal_handler_count_only ct i g :
  index 4 (input_pos ct) = Some i ->
  index 10 (current_goal ct) = Some g ->
  st_pos (st ct) = false ->
  st_count (st ct) = true ->
  exists ct' next,
    subgoal_handler ct = Some (ct', next)
    /\ input_pos ct' = input_pos ct
    /\ display_value ct'
       = vinsert i (if display_value ct !!! i =? DASH_C then 0
                    else Z.rem (to_int (display_value ct !!! i + 1)) 16)
                 (display_value ct).
Proof.
  intros Hi Hg Hpos Hcount.
  rewrite subgoal_handler_unfold. unfold subgoal_pos, subgoal_count.
  rewrite Hpos. cbn [mbind option_bind]. rewrite Hcount, Hi.
  cbn [mbind option_bind].
  destruct (display_value ct !!! i =? DASH_C);
    cbn [mbind option_bind];
    match goal with
    | |- context [index 10 (current_goal ?c)] =>
        replace (current_goal c) with (current_goal ct)
          by (destruct ct; reflexivity)
    end;
    rewrite Hg; cbn [mbind option_bind]; cbv zeta;
    eexists _, _; (split; [reflexivity|]); destruct ct; split; reflexivity.
Qed.

(** The handler when both buttons fired: the cursor moves on, and the
    position it reaches, marked with a dash by the cursor block, is
    incremented to 0. *)
Lemma subgoal_handler_pos_count ct i g :
  index 4 (input_pos ct) = Some i ->
  index 10 (current_goal ct) = Some g ->
  st_pos (st ct) = true ->
  st_count (st ct) = true ->
  exists ct' next j,
    subgoal_handler ct = Some (ct', next)
    /\ index 4 (input_pos ct') = Some j
    /\ display_value ct' !!! j = 0.
Proof.
  intros Hi Hg Hpos Hcount.
  pose proof (index_bounds _ _ _ Hi) as Hip. change (Z.of_nat 4) with 4 in Hip.
  rewrite subgoal_handler_unfold. unfold subgoal_pos.
  rewrite Hpos, Hi. cbn [mbind option_bind].
  set (ct2 := if _ =? DASH_C then _ else ct).
  assert (input_pos ct2 = input_pos ct /\ st ct2 = st ct
          /\ current_goal ct2 = current_goal ct) as (Hip2 & Hst2 & Hcg2)
    by (subst ct2; destruct (_ =? DASH_C); destruct ct; repeat split).
  cbn [input_pos set_input_pos]. rewrite Hip2.
  rewrite to_int_small by (unfold INT_MAX; lia).
  rewrite Z.rem_mod_nonneg by lia.
  destruct (index_in_range 4 ((input_pos ct + 1) mod 4)) as [j Hj];
    [change (Z.of_nat 4) with 4; Z.div_mod_to_equations; lia|].
  rewrite Hj. cbn [mbind option_bind]. unfold subgoal_count.
  set (ct3 := store_display j DASH_C _).
  assert (st ct3 = st ct /\ current_goal ct3 = current_goal ct
          /\ input_pos ct3 = (input_pos ct + 1) mod 4
          /\ display_value ct3 !!! j = DASH_C) as (Hst3 & Hcg3 & Hip3 & Hdv3).
  { subst ct3. rewrite <- Hst2, <- Hcg2. destruct ct2. cbn.
    rewrite vlookup_insert. repeat split. }
  rewrite Hst3, Hcount, Hip3, Hj. cbn [mbind option_bind].
  rewrite Hdv3. change (DASH_C =? DASH_C) with true. cbv iota.
  cbn [mbind option_bind].
  replace (current_goal (store_display j 0 ct3)) with (current_goal ct)
    by (rewrite <- Hcg3; destruct ct3; reflexivity).
  rewrite Hg. cbn [mbind option_bind]. cbv zeta.
  eexists _, _, j. split; [reflexivity|]. split.
  - rewrite <- Hj, <- Hip3. destruct ct3; reflexivity.
  - destruct ct3; cbn. apply vlookup_insert.
Qed.

(** C9.  When the increment button fired and the cursor position holds
    the blank sentinel, [subgoal_handler] leaves 0 at the cursor:
    [(0xFF + 1) % 0x10] is 0, a hex digit.  When the cursor button did not
    fire in the same iteration the cursor stays, the blank position itself
    becomes 0, and the display is the one the handler leaves when the
    position held a dash instead.  (When the cursor button fired too, the
    cursor has moved on to a position marked with a dash, which becomes 0
    as well.) *)
Theorem subgoal_increment_blank ct i g :
  index 4 (input_pos ct) = Some i ->
  index 10 (current_goal ct) = Some g ->
  st_count (st ct) = true ->
  display_value ct !!! i = BLANK_C ->
  Z.rem (to_int (BLANK_C + 1)) 16 = 0
  /\ (exists ct' next j,
        subgoal_handler ct = Some (ct', next)
        /\ index 4 (input_pos ct') = Some j
        /\ display_value ct' !!! j = 0)
  /\ (st_pos (st ct) = false ->
      exists ct' next,
        subgoal_handler ct = Some (ct', next)
        /\ input_pos ct' = input_pos ct
        /\ display_value ct' = vinsert i 0 (display_value ct)
        /\ display_value ct' !!! i = Z.rem (to_int (BLANK_C + 1)) 16
        /\ (exists ct'' next',
              subgoal_handler (store_display i DASH_C ct)
                = Some (ct'', next')
              /\ display_value ct'' = display_value ct')).
Proof.
  intros Hi Hg Hcount Hblank.
  assert (st_pos (st ct) = false ->
          exists ct' next,
            subgoal_handler ct = Some (ct', next)
            /\ input_pos ct' = input_pos ct
            /\ display_value ct' = vinsert i 0 (display_value ct)
            /\ display_value ct' !!! i = Z.rem (to_int (BLANK_C + 1)) 16
            /\ (exists ct'' next',
                  subgoal_handler (store_display i DASH_C ct)
                    = Some (ct'', next')
                  /\ display_value ct'' = display_value ct')) as Hstay.
  { intros Hpos.
    destruct (subgoal_handler_count_only ct i g Hi Hg Hpos Hcount)
      as (ct' & next & E & Hip & Hdv).
    rewrite Hblank in Hdv.
    change (if BLANK_C =? DASH_C then _ else _) with 0 in Hdv.
    destruct (subgoal_handler_count_only (store_display i DASH_C ct) i g)
      as (ct'' & next' & E' & _ & Hdv');
      try (destruct ct; assumption).
    replace (display_value (store_display i DASH_C ct))
      with (vinsert i DASH_C (display_value ct)) in Hdv'
      by (destruct ct; reflexivity).
    rewrite vlookup_insert in Hdv'.
    change (if DASH_C =? DASH_C then 0 else _) with 0 in Hdv'.
    exists ct', next. split; [exact E|]. split; [exact Hip|].
    split; [exact Hdv|]. rewrite Hdv, vlookup_insert.
    split; [reflexivity|].
    exists ct'', next'. split; [exact E'|].
    rewrite Hdv'. apply vec_eq. intros j.
    destruct (decide (i = j)) as [->|Hne].
    - now rewrite !vlookup_insert.
    - now rewrite !vlookup_insert_ne. }
  split; [reflexivity|]. split; [|exact Hstay].
  destruct (st_pos (st ct)) eqn:Hpos.
  - exact (subgoal_handler_pos_count ct i g Hi Hg Hpos Hcount).
  - destruct (Hstay eq_refl) as (ct' & next & E & Hip & Hdv & _).
    exists ct', next, i. split; [exact E|]. split; [now rewrite Hip|].
    rewrite Hdv. apply vlookup_insert.
Qed.

Lemma subgoal_increment_blank_witness :
  let ct := set_input_pos 2
              (set_display_value [# 0; 1; BLANK_C; BLANK_C]
                 (set_st (set_st_count true (st fetched_context))
                         fetched_context)) in
  exists ct' next,
    subgoal_handler ct = Some (ct', next)
    /\ input_pos ct' = 2
    /\ display_value ct' = [# 0; 1; 0; BLANK_C]
    /\ display_value ct' !!! 2%fin = Z.rem (to_int (BLANK_C + 1)) 16
    /\ (exists ct'' next',
          subgoal_handler (store_display 2%fin DASH_C ct) = Some (ct'', next')
          /\ display_value ct'' = display_value ct').
Proof.
  cbv zeta.
  match goal with
  | |- context [subgoal_handler ?c] =>
      refine (proj2 (proj2 (subgoal_increment_blank c 2%fin 0%fin
                              eq_refl eq_refl eq_refl eq_refl)) eq_refl)
  end.
Defined.

(** *** NEXT_GOAL *)

Lemma next_goal_handler_unfold ct :
  next_goal_handler ct
    = (if current_goal ct =? final_goal ct
       then (set_display_value [# DASH_C; DASH_C; DASH_C; DASH_C]
               (set_st (set_st_completed true (st ct)) ct),
             COMPLETE)
       else (set_current_goal (to_int (current_goal ct + 1))
               (set_st (set_st_completed false (st ct)) ct),
             MAIN)).
Proof.
  unfold next_goal_handler. rewrite four_dashes_eq.
  destruct ct as [ip dv dist cg fg gs s bt]. cbn.
  destruct (cg =? fg); reflexivity.
Qed.

(** C4 (amended).  [next_goal_handler] sets [completed] to the
    comparison of the current and the final goal index.  When they are
    equal it shows four dashes and gives COMPLETE; otherwise it increments
    the current index (an [int]; the increment is exact below [INT_MAX])
    and gives MAIN.  [subgoal_handler], on a context where reset was not
    pressed, gives NEXT_GOAL exactly when the four symbols it leaves on the
    display equal the password of the current goal. *)
Theorem next_goal_handler_spec ct :
  next_goal_handler ct
    = (if current_goal ct =? final_goal ct
       then (set_display_value [# DASH_C; DASH_C; DASH_C; DASH_C]
               (set_st (set_st_completed true (st ct)) ct),
             COMPLETE)
       else (set_current_goal (to_int (current_goal ct + 1))
               (set_st (set_st_completed false (st ct)) ct),
             MAIN))
  /\ st_completed (st (fst (next_goal_handler ct)))
     = (current_goal ct =? final_goal ct)
  /\ (-2147483648 <= current_goal ct < INT_MAX ->
      to_int (current_goal ct + 1) = current_goal ct + 1)
  /\ (forall g,
        0 <= input_pos ct <= 3 ->
        index 10 (current_goal ct) = Some g ->
        st_reset (st ct) = false ->
        exists ct' next,
          subgoal_handler ct = Some (ct', next)
          /\ (next = NEXT_GOAL
              <-> display_value ct' = goal_passwd (goals ct' !!! g))).
Proof.
  split; [|split; [|split]].
  - apply next_goal_handler_unfold.
  - rewrite next_goal_handler_unfold.
    destruct ct as [ip dv dist cg fg gs s bt]. cbn.
    destruct (cg =? fg); reflexivity.
  - intros Hcg. apply to_int_small. lia.
  - intros g Hip Hg Hreset.
    destruct (subgoal_handler_result ct g Hip Hg) as (ct2 & _ & F & E).
    destruct (edits_fields _ _ F) as (_ & _ & _ & Hgs & _ & _).
    cbv zeta in E. rewrite Hreset in E.
    set (ok := count_matches _ _ =? 4) in E.
    assert (display_value (set_st (set_st_passwd ok (st ct)) ct2)
            = display_value ct2) as Hdv by (destruct ct2; reflexivity).
    assert (goals (set_st (set_st_passwd ok (st ct)) ct2) = goals ct)
      as Hgs' by (rewrite <- Hgs; destruct ct2; reflexivity).
    eexists _, _. split; [exact E|].
    rewrite Hdv, Hgs', <- count_matches_4. fold ok.
    destruct ok, (st_satcon (st ct)), (st_reached (st ct));
      cbn; split; congruence.
Qed.

Lemma next_goal_handler_spec_witness :
  let ct := set_input_pos 3
              (set_display_value [# 0; 1; 2; 2]
                 (set_st (set_st_count true (st fetched_context))
                         fetched_context)) in
  exists ct' next,
    subgoal_handler ct = Some (ct', next)
    /\ (next = NEXT_GOAL
        <-> display_value ct' = goal_passwd (goals ct' !!! 0%fin)).
Proof.
  cbv zeta.
  match goal with
  | |- context [subgoal_handler ?c] =>
      apply (proj2 (proj2 (proj2 (next_goal_handler_spec c))) 0%fin);
        [vm_compute; split; discriminate | reflexivity | reflexivity]
  end.
Defined.

(** C4, as the specification states it, fails when reset is pressed in the
    same iteration: the display equals the password of the current goal,
    [passwd] is set, and the next handler is FETCH. *)
Lemma subgoal_reset_beats_password :
  let ct := set_display_value [# 0; 1; 2; 3]
              (set_st (set_st_reset true (st fetched_context))
                      fetched_context) in
  exists ct',
    subgoal_handler ct = Some (ct', FETCH)
    /\ display_value ct = goal_passwd (goals ct !!! 0%fin)
    /\ display_value ct' = goal_passwd (goals ct' !!! 0%fin)
    /\ st_passwd (st ct') = true
    /\ FETCH <> NEXT_GOAL.
Proof.
  cbv zeta. eexists. split; [vm_compute; reflexivity|].
  repeat split. discriminate.
Qed.

(** *** Determinism *)

Lemma fetch_loop_first_fix polls ct :
  fetch_loop polls ct
  = match first_fix polls with
    | Some fx => fetch_goal fx ct
    | None => ct
    end.
Proof.
  induction polls as [|[fx|] polls IH]; cbn [fetch_loop first_fix]; auto.
Qed.

(** C7 (amended).  Every handler but [fetch_handler] is a function of the
    context alone: whatever the serial line delivers while it runs, next
    handler, context and outputs are the same.  [fetch_handler] is a
    function of the context and of the first sentence the serial line
    delivers within its polling window. *)
Theorem handlers_deterministic :
  (forall h polls1 polls2 ct,
     h <> FETCH -> handle h polls1 ct = handle h polls2 ct)
  /\ (forall polls1 polls2 ct,
        first_fix polls1 = first_fix polls2 ->
        handle FETCH polls1 ct = handle FETCH polls2 ct).
Proof.
  split.
  - intros [] polls1 polls2 ct Hh; try reflexivity. congruence.
  - intros polls1 polls2 ct Hfix. cbn [handle]. unfold fetch_handler.
    rewrite !fetch_loop_first_fix, Hfix. reflexivity.
Qed.

Lemma handlers_deterministic_witness :
  handle SUBGOAL [] fetched_context
    = handle SUBGOAL [Some here] fetched_context
  /\ handle FETCH [None; Some (mk_gps_fix 1%float 2%float 3); None]
            boot_context
     = handle FETCH [Some (mk_gps_fix 1%float 2%float 3)] boot_context.
Proof.
  split.
  - apply (proj1 handlers_deterministic). discriminate.
  - apply (proj2 handlers_deterministic). reflexivity.
Defined.

(** C7, as the specification states it, fails for [fetch_handler]: on the
    same context it stays in FETCH when the serial line is silent and moves
    to MAIN, with a goal stored, when a sentence arrives. *)
Lemma fetch_handler_reads_serial :
  handle FETCH [] boot_context
    <> handle FETCH [Some here] boot_context
  /\ snd (fetch_handler [] boot_context) = FETCH
  /\ snd (fetch_handler [Some here] boot_context) = MAIN.
Proof.
  split; [|split; reflexivity].
  intros E. apply (f_equal (fun r => match r with
                                     | Some (_, next, _) => Some next
                                     | None => None
                                     end)) in E.
  vm_compute in E. discriminate.
Qed.

(** *** The cursor *)

Lemma main_handler_input_pos ct :
  input_pos (fst (main_handler ct))
  = match snd (main_handler ct) with
    | SUBGOAL => 0
    | _ => input_pos ct
    end.
Proof.
  pose proof (main_handler_refresh ct) as E. cbv zeta in E. rewrite E.
  assert (input_pos (if st_fetched (st ct) then set_distance ct
                     else set_display_value
                            [# DASH_C; DASH_C; DASH_C; DASH_C] ct)
          = input_pos ct) as Hip.
  { destruct (st_fetched (st ct)); [|reflexivity].
    rewrite set_distance_frame. reflexivity. }
  destruct (st_reset (st ct)), (st_reached (st ct)), (st_satcon (st ct));
    cbn [fst snd negb andb]; try exact Hip; reflexivity.
Qed.

Lemma subgoal_handler_input_pos ct ct' next :
  0 <= input_pos ct <= 3 ->
  subgoal_handler ct = Some (ct', next) ->
  input_pos ct'
  = (if st_pos (st ct) then (input_pos ct + 1) mod 4 else input_pos ct).
Proof.
  intros Hip. rewrite subgoal_handler_unfold.
  destruct (subgoal_edits_defined ct Hip) as (ct2 & E & _ & P & _).
  rewrite E. cbn [mbind option_bind].
  destruct (index 10 (current_goal ct2)); cbn [mbind option_bind];
    [|discriminate].
  cbv zeta. intros [= <- _]. rewrite <- P. destruct ct2; reflexivity.
Qed.

Lemma fetch_handler_input_pos polls ct :
  input_pos (fst (fetch_handler polls ct)) = input_pos ct.
Proof.
  unfold fetch_handler. rewrite fetch_loop_first_fix.
  destruct (first_fix polls) as [fx|];
    match goal with
    | |- context [if ?b then _ else _] => destruct b
    end; destruct ct; reflexivity.
Qed.

Lemma next_goal_handler_input_pos ct :
  input_pos (fst (next_goal_handler ct)) = input_pos ct.
Proof.
  rewrite next_goal_handler_unfold.
  destruct (current_goal ct =? final_goal ct); destruct ct; reflexivity.
Qed.

Lemma complete_handler_input_pos ct :
  input_pos (fst (complete_handler ct)) = input_pos ct.
Proof.
  unfold complete_handler. destruct (st_reset (st ct)); destruct ct;
    reflexivity.
Qed.

Lemma satcon_handler_input_pos ct :
  input_pos (fst (fst (satcon_handler ct))) = input_pos ct.
Proof.
  unfold satcon_handler. destruct (st_satcon (st ct)); reflexivity.
Qed.

Lemma handle_input_pos h polls ct ct' next out :
  0 <= input_pos ct <= 3 ->
  handle h polls ct = Some (ct', next, out) ->
  0 <= input_pos ct' <= 3.
Proof.
  intros Hip. destruct h; cbn [handle].
  - intros [= E _]. pose proof (main_handler_input_pos ct) as H.
    rewrite E in H. cbn [fst snd] in H. rewrite H. destruct next; lia.
  - intros [= E _]. pose proof (fetch_handler_input_pos polls ct) as H.
    rewrite E in H. cbn [fst] in H. lia.
  - intros [= E]. pose proof (satcon_handler_input_pos ct) as H.
    rewrite E in H. cbn [fst] in H. lia.
  - destruct (subgoal_handler ct) as [[ct1 n1]|] eqn:E;
      cbn [mbind option_bind]; [|discriminate].
    intros [= <- _ _]. rewrite (subgoal_handler_input_pos _ _ _ Hip E).
    destruct (st_pos (st ct)); [|exact Hip]. Z.div_mod_to_equations; lia.
  - intros [= E _]. pose proof (next_goal_handler_input_pos ct) as H.
    rewrite E in H. cbn [fst] in H. lia.
  - intros [= E _]. pose proof (complete_handler_input_pos ct) as H.
    rewrite E in H. cbn [fst] in H. lia.
Qed.

(** With the cursor on the display and the current goal in the goal
    array, every handler returns. *)
Lemma handle_defined h polls ct :
  0 <= input_pos ct <= 3 ->
  0 <= current_goal ct <= 9 ->
  is_Some (handle h polls ct).
Proof.
  intros Hip Hcg. destruct h; cbn [handle]; eauto.
  destruct (index_in_range 10 (current_goal ct)) as [g Hg];
    [change (Z.of_nat 10) with 10; lia|].
  destruct (subgoal_handler_result ct g Hip Hg) as (ct2 & _ & _ & E).
  rewrite E. cbn [mbind option_bind]. eauto.
Qed.

Lemma update_buttons_iter_input_pos t r i acc :
  input_pos (snd (update_buttons_iter t r i acc)) = input_pos (snd acc).
Proof.
  destruct acc as [nc ct]. unfold update_buttons_iter.
  destruct (negb _); [destruct (nc <? t)|]; destruct ct; reflexivity.
Qed.

Lemma update_buttons_input_pos t r nc ct :
  input_pos (snd (update_buttons t r nc ct)) = input_pos ct.
Proof.
  unfold update_buttons. cbn [foldl].
  now rewrite !update_buttons_iter_input_pos.
Qed.

(** ** Debounced input *)

(** Outside the eligibility window a button takes no edge: its flag is
    cleared and [next_check] and the button records keep their values. *)
Lemma update_buttons_iter_closed t r i nc ct :
  t <= nc ->
  update_buttons_iter t r i (nc, ct)
  = (nc, set_st (store_event (btn_event (btn ct !!! i)) false (st ct)) ct).
Proof.
  intros Hnc. unfold update_buttons_iter.
  replace (nc <? t) with false by (symmetry; apply Z.ltb_ge; lia).
  destruct (negb _); reflexivity.
Qed.

(** One button: either no edge is taken, or the window was open and
    [next_check] moves to [current_time + BTN_DELAY]. *)
Lemma update_buttons_iter_cases t r i nc ct :
  (fst (update_buttons_iter t r i (nc, ct)) = nc
   /\ btn (snd (update_buttons_iter t r i (nc, ct))) = btn ct)
  \/ (nc < t
      /\ fst (update_buttons_iter t r i (nc, ct)) = to_uint32 (t + BTN_DELAY)).
Proof.
  unfold update_buttons_iter.
  destruct (negb _); [destruct (Z.ltb_spec nc t)|]; cbn [fst snd];
    auto; left; split; destruct ct; reflexivity.
Qed.

Lemma update_buttons_closed t r nc ct :
  t <= nc ->
  fst (update_buttons t r nc ct) = nc
  /\ btn (snd (update_buttons t r nc ct)) = btn ct
  /\ forall i : fin 3,
       load_event (btn_event (btn ct !!! i))
                  (st (snd (update_buttons t r nc ct))) = false.
Proof.
  intros Hnc. unfold update_buttons. cbn [foldl].
  rewrite !update_buttons_iter_closed by exact Hnc. cbn [fst snd].
  destruct ct as [ip dv dist cg fg gs s bt]. cbn.
  split; [reflexivity|]. split; [reflexivity|].
  inv_vec bt; intros [w0 e0 p0] [w1 e1 p1] [w2 e2 p2] i.
  inv_fin i; [|intros i; inv_fin i; [|intros i; inv_fin i;
                                       [|intros i; inv_fin i]]];
    cbn; destruct e0, e1, e2; reflexivity.
Qed.

(** One call, away from the wrap-around of the millisecond counter:
    either no edge is taken, or [next_check] is [current_time + BTN_DELAY]. *)
Lemma update_buttons_cases t r nc ct :
  0 <= t -> t + BTN_DELAY <= UINT32_MAX ->
  (fst (update_buttons t r nc ct) = nc
   /\ btn (snd (update_buttons t r nc ct)) = btn ct)
  \/ fst (update_buttons t r nc ct) = t + BTN_DELAY.
Proof.
  intros Ht Hwrap. unfold update_buttons. cbn [foldl].
  assert (to_uint32 (t + BTN_DELAY) = t + BTN_DELAY) as Hu
    by (apply to_uint32_small; unfold BTN_DELAY in *; lia).
  assert (forall i acc,
            fst acc = t + BTN_DELAY ->
            fst (update_buttons_iter t r i acc) = t + BTN_DELAY) as Hkeep.
  { intros i [nc' ct'] E. cbn [fst] in E. subst nc'.
    rewrite update_buttons_iter_closed by (unfold BTN_DELAY; lia).
    reflexivity. }
  destruct (update_buttons_iter_cases t r 0%fin nc ct) as [[E0 B0]|[_ E0]].
  2:{ right. rewrite Hu in E0. now apply Hkeep, Hkeep. }
  destruct (update_buttons_iter t r 0%fin (nc, ct)) as [nc0 ct0].
  cbn [fst snd] in E0, B0. subst nc0.
  destruct (update_buttons_iter_cases t r 1%fin nc ct0) as [[E1 B1]|[_ E1]].
  2:{ right. rewrite Hu in E1. now apply Hkeep. }
  destruct (update_buttons_iter t r 1%fin (nc, ct0)) as [nc1 ct1].
  cbn [fst snd] in E1, B1. subst nc1.
  destruct (update_buttons_iter_cases t r 2%fin nc ct1) as [[E2 B2]|[_ E2]].
  2:{ right. rewrite Hu in E2. exact E2. }
  left. split; [exact E2|]. congruence.
Qed.

(** X3.  The debounce property away from the wrap-around: when a call at
    [t1] took an edge, a call at [t2], at most [BTN_DELAY] later, takes
    none and raises no flag, whatever the pins read. *)
Lemma debounce_without_wrap t1 t2 r1 r2 nc ct ct' :
  0 <= t1 -> t1 + BTN_DELAY <= UINT32_MAX ->
  t1 <= t2 <= t1 + BTN_DELAY ->
  btn (snd (update_buttons t1 r1 nc ct)) <> btn ct ->
  btn ct' = btn (snd (update_buttons t1 r1 nc ct)) ->
  let nc1 := fst (update_buttons t1 r1 nc ct) in
  fst (update_buttons t2 r2 nc1 ct') = nc1
  /\ btn (snd (update_buttons t2 r2 nc1 ct')) = btn ct'
  /\ forall i : fin 3,
       load_event (btn_event (btn ct' !!! i))
                  (st (snd (update_buttons t2 r2 nc1 ct'))) = false.
Proof.
  intros Ht1 Hwrap Ht2 Hedge Hbtn nc1.
  destruct (update_buttons_cases t1 r1 nc ct Ht1 Hwrap) as [[_ B]|E];
    [contradiction|].
  apply update_buttons_closed. subst nc1. rewrite E. lia.
Qed.

(** A flag is raised only by an edge from released to pressed of its own
    button, so a flag that was raised in one call is cleared by the next
    call: the button is still marked as down. *)
Lemma update_buttons_flags t r nc ct :
  btn_event (btn ct !!! 0%fin) = ev_reset ->
  btn_event (btn ct !!! 1%fin) = ev_pos ->
  btn_event (btn ct !!! 2%fin) = ev_count ->
  let ct' := snd (update_buttons t r nc ct) in
  (forall i : fin 3,
     btn_event (btn ct' !!! i) = btn_event (btn ct !!! i)
     /\ (load_event (btn_event (btn ct !!! i)) (st ct') = true ->
         btn_was_down (btn ct !!! i) = false
         /\ btn_was_down (btn ct' !!! i) = true)).
Proof.
  intros H0 H1 H2 ct' i. subst ct'.
  destruct ct as [ip dv dist cg fg gs s bt].
  revert H0 H1 H2. cbn [btn].
  inv_vec bt; intros [w0 e0 p0] [w1 e1 p1] [w2 e2 p2].
  cbn. intros -> -> ->.
  unfold update_buttons. cbn [foldl]. unfold update_buttons_iter.
  cbn [btn st set_st set_btn vinsert btn_pin btn_was_down btn_event
       store_event].
  inv_fin i; [|intros i; inv_fin i; [|intros i; inv_fin i;
                                       [|intros i; inv_fin i]]];
    repeat match goal with
           | |- context [if ?b then _ else _] => destruct b eqn:?
           end;
    cbn in *;
    repeat match goal with
           | H : negb (eqb ?a ?b) = _ |- _ => destruct a, b; cbn in H
           end;
    try discriminate; split; auto; try discriminate.
Qed.

(** C6: the failing input.  With the millisecond counter 50 ms before
    its wrap-around, [current_time + BTN_DELAY] wraps to 50 and the window
    never closes: the reset button pressed at [t], released 10 ms later and
    pressed again 10 ms after that has all three level changes taken as
    edges, and the reset flag is raised twice within 20 ms. *)
Theorem debounce_wraps_around :
  let t := 4294967246 in
  let step1 := update_buttons t (reset_pin 0) 0 boot_context in
  let step2 :=
    update_buttons (t + 10) (reset_pin 1) (fst step1) (snd step1) in
  let step3 :=
    update_buttons (t + 20) (reset_pin 0) (fst step2) (snd step2) in
  t + 20 <= UINT32_MAX
  /\ fst step1 = 50
  /\ st_reset (st (snd step1)) = true
  /\ btn_was_down (btn (snd step1) !!! 0%fin) = true
  /\ fst step2 = 60
  /\ btn_was_down (btn (snd step2) !!! 0%fin) = false
  /\ fst step3 = 70
  /\ st_reset (st (snd step3)) = true
  /\ btn_was_down (btn (snd step3) !!! 0%fin) = true.
Proof. vm_compute. repeat split; discriminate. Qed.

(** *** Buttons and flags across the handlers *)

Lemma subgoal_pos_frame ct ct1 :
  subgoal_pos ct = Some ct1 ->
  ct1 = set_input_pos (input_pos ct1)
          (set_display_value (display_value ct1) ct).
Proof.
  unfold subgoal_pos. destruct (st_pos (st ct)).
  - destruct (index 4 (input_pos ct)) as [i|]; cbn [mbind option_bind];
      [|discriminate].
    destruct (index 4 _) as [j|]; cbn [mbind option_bind]; [|discriminate].
    intros [= <-]. destruct ct. destruct (_ =? DASH_C); reflexivity.
  - intros [= <-]. destruct ct. reflexivity.
Qed.

Lemma subgoal_count_frame ct ct1 :
  subgoal_count ct = Some ct1 ->
  ct1 = set_input_pos (input_pos ct1)
          (set_display_value (display_value ct1) ct).
Proof.
  unfold subgoal_count. destruct (st_count (st ct)).
  - destruct (index 4 (input_pos ct)) as [i|]; cbn [mbind option_bind];
      [|discriminate].
    destruct (_ =? DASH_C); intros [= <-]; destruct ct; reflexivity.
  - intros [= <-]. destruct ct. reflexivity.
Qed.

(** No handler writes a button record or one of the three edge flags. *)
Lemma handle_buttons h polls ct ct' next out :
  handle h polls ct = Some (ct', next, out) ->
  btn ct' = btn ct
  /\ forall e, load_event e (st ct') = load_event e (st ct).
Proof.
  destruct h; cbn [handle].
  - intros [= E _]. pose proof (main_handler_refresh ct) as P.
    cbv zeta in P. rewrite E in P.
    assert (forall c, c = set_distance ct \/
                      c = set_display_value
                            [# DASH_C; DASH_C; DASH_C; DASH_C] ct ->
                      btn c = btn ct /\ st c = st ct) as Hshown.
    { intros c [-> | ->]; [rewrite set_distance_frame|]; split; reflexivity. }
    destruct (Hshown (if st_fetched (st ct) then set_distance ct
                      else set_display_value
                             [# DASH_C; DASH_C; DASH_C; DASH_C] ct))
      as [Hb Hs]; [destruct (st_fetched (st ct)); auto|].
    destruct (st_reset (st ct)), (st_reached (st ct)), (st_satcon (st ct));
      cbn [negb andb] in P; injection P as -> _; cbn [btn st set_input_pos
        set_display_value]; rewrite ?Hb, ?Hs; auto.
  - intros [= E _]. revert E. unfold fetch_handler.
    rewrite fetch_loop_first_fix.
    destruct (first_fix polls) as [fx|];
      match goal with
      | |- context [if ?b then _ else _] => destruct b
      end; intros [= <- _]; destruct ct as [ip dv dist cg fg gs [] bt];
      (split; [reflexivity|intros []; reflexivity]).
  - unfold satcon_handler. destruct (negb _); intros [= <- _ _]; auto.
  - destruct (subgoal_handler ct) as [[ct1 n1]|] eqn:E;
      cbn [mbind option_bind]; [|discriminate].
    intros [= <- _ _]. rewrite subgoal_handler_unfold in E.
    destruct (subgoal_pos ct) as [c1|] eqn:E1; cbn [mbind option_bind] in E;
      [|discriminate].
    destruct (subgoal_count c1) as [c2|] eqn:E2;
      cbn [mbind option_bind] in E; [|discriminate].
    destruct (index 10 (current_goal c2)) as [g|];
      cbn [mbind option_bind] in E; [|discriminate].
    cbv zeta in E. injection E as <- _.
    apply subgoal_pos_frame in E1. apply subgoal_count_frame in E2.
    rewrite E2, E1. destruct ct as [ip dv dist cg fg gs [] bt].
    split; [reflexivity|intros []; reflexivity].
  - intros [= E _]. pose proof (next_goal_handler_unfold ct) as P.
    rewrite E in P. destruct (current_goal ct =? final_goal ct);
      injection P as -> _; destruct ct as [ip dv dist cg fg gs [] bt];
      (split; [reflexivity|intros []; reflexivity]).
  - unfold complete_handler. destruct (negb _); intros [= <- _ _]; auto.
Qed.

(** ** The control loop *)

Section SketchFacts.

Variables sin cos round : float -> float.
Variable atan2 : float -> float -> float.
Variable double_to_int : float -> Z.
Variable encodeDigit : Z -> Z.

(** The sketch's functions at the library functions of this section. *)
Local Abbreviation locate' := (locate sin cos round atan2 double_to_int).
Local Abbreviation loc_loop' := (loc_loop sin cos round atan2 double_to_int).
Local Abbreviation update_loc' :=
  (update_loc sin cos round atan2 double_to_int).
Local Abbreviation loop' :=
  (loop sin cos round atan2 double_to_int encodeDigit).
Local Abbreviation run' :=
  (run sin cos round atan2 double_to_int encodeDigit).

(** [update_loc] writes the distance and the conditions [satcon] and
    [reached], nothing else. *)
Lemma locate_frame fx t lu ct lu' ct' :
  locate' fx t lu ct = Some (lu', ct') ->
  ct' = set_distance_field (distance ct')
          (set_st (set_st_satcon (st_satcon (st ct'))
                     (set_st_reached (st_reached (st ct')) (st ct))) ct).
Proof.
  unfold locate. destruct (st_fetched (st ct)).
  - destruct (index 10 (current_goal ct)) as [g|];
      cbn [mbind option_bind]; [|discriminate].
    destruct (3 <=? fix_satellites fx); intros [= _ <-];
      destruct ct as [ip dv dist cg fg gs [] bt]; reflexivity.
  - cbn [mbind option_bind].
    destruct (3 <=? fix_satellites fx); intros [= _ <-];
      destruct ct as [ip dv dist cg fg gs [] bt]; reflexivity.
Qed.

Lemma loc_loop_frame polls t lu ct lu' ct' :
  loc_loop' polls t lu ct = Some (lu', ct') ->
  ct' = set_distance_field (distance ct')
          (set_st (set_st_satcon (st_satcon (st ct'))
                     (set_st_reached (st_reached (st ct')) (st ct))) ct).
Proof.
  induction polls as [|[fx|] polls IH]; cbn [loc_loop].
  - intros [= _ <-]. destruct ct as [ip dv dist cg fg gs [] bt]. reflexivity.
  - apply locate_frame.
  - exact IH.
Qed.

Lemma update_loc_frame inp lu ct lu' ct' :
  update_loc' inp lu ct = Some (lu', ct') ->
  ct' = set_distance_field (distance ct')
          (set_st (set_st_satcon (st_satcon (st ct'))
                     (set_st_reached (st_reached (st ct')) (st ct))) ct).
Proof.
  unfold update_loc.
  destruct (loc_loop' _ _ _ _) as [[lu1 ct1]|] eqn:E;
    cbn [mbind option_bind]; [|discriminate].
  intros [= _ <-]. apply loc_loop_frame in E. rewrite E.
  destruct ct as [ip dv dist cg fg gs [] bt]. reflexivity.
Qed.

Lemma update_loc_input_pos inp lu ct lu' ct' :
  update_loc' inp lu ct = Some (lu', ct') -> input_pos ct' = input_pos ct.
Proof. intros E. apply update_loc_frame in E. rewrite E. reflexivity. Qed.

Lemma loop_input_pos inp m m' out :
  0 <= input_pos (ct_g m) <= 3 ->
  loop' inp m = Some (m', out) ->
  0 <= input_pos (ct_g m') <= 3.
Proof.
  intros Hip. unfold loop.
  destruct (update_loc' _ _ _) as [[lu ct1]|] eqn:E1;
    cbn [mbind option_bind]; [|discriminate].
  apply update_loc_input_pos in E1.
  pose proof (update_buttons_input_pos (in_time inp) (in_pins inp)
                (next_check m) ct1) as E2.
  destruct (update_buttons _ _ _ ct1) as [nc ct2]. cbn [snd] in E2.
  destruct (handle _ _ ct2) as [[[ct3 h] o]|] eqn:E3;
    cbn [mbind option_bind]; [|discriminate].
  intros [= <- _]. cbn [ct_g].
  eapply handle_input_pos; [|exact E3]. lia.
Qed.

Lemma run_input_pos inputs m m' :
  0 <= input_pos (ct_g m) <= 3 ->
  run' inputs m = Some m' ->
  0 <= input_pos (ct_g m') <= 3.
Proof.
  revert m. induction inputs as [|inp inputs IH]; intros m Hip;
    cbn [run].
  - intros [= <-]. exact Hip.
  - destruct (loop' inp m) as [[m1 out]|] eqn:E; cbn [mbind option_bind];
      [|discriminate].
    apply IH. exact (loop_input_pos _ _ _ _ Hip E).
Qed.

(** The buttons as [init_context] wires them, and what a turn of the loop
    does to them: the wiring stays, and a flag that is set when the
    handler runs comes from an edge from released to pressed taken in this
    turn. *)
Lemma loop_buttons inp m m' out :
  btn_wired (ct_g m) ->
  loop' inp m = Some (m', out) ->
  btn_wired (ct_g m')
  /\ forall i : fin 3,
       load_event (btn_event (btn (ct_g m') !!! i)) (st (ct_g m')) = true ->
       btn_was_down (btn (ct_g m) !!! i) = false
       /\ btn_was_down (btn (ct_g m') !!! i) = true.
Proof.
  intros (W0 & W1 & W2). unfold loop.
  destruct (update_loc' _ _ _) as [[lu ct1]|] eqn:E1;
    cbn [mbind option_bind]; [|discriminate].
  apply update_loc_frame in E1.
  assert (btn ct1 = btn (ct_g m)) as B1 by (rewrite E1; reflexivity).
  pose proof (update_buttons_flags (in_time inp) (in_pins inp)
                (next_check m) ct1) as F.
  rewrite B1 in F. specialize (F W0 W1 W2). cbv zeta in F.
  destruct (update_buttons _ _ _ ct1) as [nc ct2]. cbn [snd] in F.
  destruct (handle _ _ ct2) as [[[ct3 h] o]|] eqn:E3;
    cbn [mbind option_bind]; [|discriminate].
  intros [= <- _]. cbn [ct_g].
  destruct (handle_buttons _ _ _ _ _ _ E3) as [B3 S3].
  rewrite B3. split.
  - unfold btn_wired. rewrite B3.
    destruct (F 0%fin) as [-> _], (F 1%fin) as [-> _], (F 2%fin) as [-> _].
    auto.
  - intros i. rewrite S3. destruct (F i) as [-> Hi]. exact Hi.
Qed.

(** X4.  The edge flags are one-shot: no flag is set in two successive
    turns of the loop. *)
Lemma edge_flag_one_shot inp1 inp2 m m1 m2 out1 out2 (i : fin 3) :
  btn_wired (ct_g m) ->
  loop' inp1 m = Some (m1, out1) ->
  loop' inp2 m1 = Some (m2, out2) ->
  load_event (btn_event (btn (ct_g m1) !!! i)) (st (ct_g m1)) = true ->
  load_event (btn_event (btn (ct_g m2) !!! i)) (st (ct_g m2)) = false.
Proof.
  intros W E1 E2 H1.
  destruct (loop_buttons _ _ _ _ W E1) as [W1 F1].
  destruct (loop_buttons _ _ _ _ W1 E2) as [_ F2].
  destruct (F1 i H1) as [_ Hdown].
  destruct (load_event _ (st (ct_g m2))) eqn:H2; [|reflexivity].
  destruct (F2 i H2) as [Hup _]. congruence.
Qed.

(** C8.  The cursor is always on the display.  [init_context] sets it to
    0; [main_handler] sets it to 0 when it moves to SUBGOAL and leaves it
    alone otherwise; [subgoal_handler] advances it modulo 4 when the cursor
    button fired and leaves it alone otherwise; the other handlers,
    [update_loc] and [update_buttons] leave it alone.  So every handler
    keeps it between 0 and 3, and so does every run of the control loop
    from [setup]. *)
Theorem input_pos_in_range :
  (forall ct, input_pos (init_context ct) = 0)
  /\ (forall ct,
        input_pos (fst (main_handler ct))
        = match snd (main_handler ct) with
          | SUBGOAL => 0
          | _ => input_pos ct
          end)
  /\ (forall ct ct' next,
        0 <= input_pos ct <= 3 ->
        subgoal_handler ct = Some (ct', next) ->
        input_pos ct'
        = (if st_pos (st ct) then (input_pos ct + 1) mod 4
           else input_pos ct))
  /\ (forall polls ct, input_pos (fst (fetch_handler polls ct)) = input_pos ct)
  /\ (forall ct, input_pos (fst (next_goal_handler ct)) = input_pos ct)
  /\ (forall ct, input_pos (fst (complete_handler ct)) = input_pos ct)
  /\ (forall ct, input_pos (fst (fst (satcon_handler ct))) = input_pos ct)
  /\ (forall inp lu ct lu' ct',
        update_loc' inp lu ct = Some (lu', ct') -> input_pos ct' = input_pos ct)
  /\ (forall t r nc ct,
        input_pos (snd (update_buttons t r nc ct)) = input_pos ct)
  /\ (forall h polls ct ct' next out,
        0 <= input_pos ct <= 3 ->
        handle h polls ct = Some (ct', next, out) ->
        0 <= input_pos ct' <= 3)
  /\ (forall inputs ct m,
        run' inputs (setup ct) = Some m -> 0 <= input_pos (ct_g m) <= 3).
Proof.
  split; [reflexivity|].
  split; [exact main_handler_input_pos|].
  split; [exact subgoal_handler_input_pos|].
  split; [exact fetch_handler_input_pos|].
  split; [exact next_goal_handler_input_pos|].
  split; [exact complete_handler_input_pos|].
  split; [exact satcon_handler_input_pos|].
  split; [exact update_loc_input_pos|].
  split; [exact update_buttons_input_pos|].
  split; [exact handle_input_pos|].
  intros inputs ct m. apply run_input_pos. cbn. lia.
Qed.

End SketchFacts.

Lemma input_pos_in_range_witness :
  exists m,
    run_walk = Some m
    /\ handler_g m = SUBGOAL
    /\ input_pos (ct_g m) = 1
    /\ 0 <= input_pos (ct_g m) <= 3.
Proof.
  eexists. split; [vm_compute; reflexivity|].
  split; [reflexivity|]. split; [reflexivity|].
  apply (proj2 (proj2 (proj2 (proj2 (proj2 (proj2 (proj2 (proj2 (proj2
           (proj2 (input_pos_in_range (fun x => x) (fun x => x)
                     (fun x => x) (fun y _ => y) (fun _ => 0)
                     (fun d => d)))))))))))
           walk zero_context).
  vm_compute. reflexivity.
Defined.

(** ** Distance formatting: beyond four digits and below zero *)

(** The digits of a distance that is not positive are not positive. *)
Lemma digit_of_nonpos d :
  d <= 0 ->
  digit_of d 10000 1000 <= 0 /\ digit_of d 1000 100 <= 0
  /\ digit_of d 100 10 <= 0 /\ digit_of d 10 1 <= 0.
Proof.
  intros Hd. unfold digit_of.
  replace d with (- - d) by lia.
  repeat split;
    (rewrite Z.rem_opp_l by lia);
    (rewrite Z.quot_opp_l by lia);
    (rewrite Z.rem_mod_nonneg by lia);
    (rewrite Z.quot_div_nonneg by (try apply Z.mod_pos_bound; lia));
    (rewrite to_int8_small; Z.div_mod_to_equations; lia).
Qed.

(** X2.  For any distance that is not negative, [set_distance] shows its
    last four decimal digits with the leading zeros blanked: a distance of
    10000 m or more loses its upper digits without notice. *)
Theorem set_distance_last_four_digits ct :
  0 <= distance ct ->
  vec_to_list (display_value (set_distance ct))
    = blank_leading (decimal_digits (distance ct mod 10000)).
Proof.
  intros Hd. rewrite set_distance_unfold. cbv zeta.
  destruct (digit_of_nonneg (distance ct)) as (E3 & E2 & E1 & E0); [lia|].
  rewrite E3, E2, E1, E0. unfold decimal_digits.
  replace (distance ct mod 10000 / 1000 mod 10)
    with (distance ct mod 10000 / 1000)
    by (Z.div_mod_to_equations; lia).
  replace (distance ct mod 10000 / 100 mod 10) with (distance ct / 100 mod 10)
    by (Z.div_mod_to_equations; lia).
  replace (distance ct mod 10000 / 10 mod 10) with (distance ct / 10 mod 10)
    by (Z.div_mod_to_equations; lia).
  replace (distance ct mod 10000 mod 10) with (distance ct mod 10)
    by (Z.div_mod_to_equations; lia).
  cbn [display_value set_display_value vec_to_list].
  apply blank_leading_digits; Z.div_mod_to_equations; lia.
Qed.

Lemma set_distance_last_four_digits_witness :
  let ct := set_distance_field 10042 boot_context in
  0 <= distance ct
  /\ vec_to_list (display_value (set_distance ct))
     = [BLANK_C; BLANK_C; 4; 2].
Proof.
  cbv zeta.
  assert (0 <= distance (set_distance_field 10042 boot_context)) as H
    by (vm_compute; discriminate).
  split; [exact H|].
  exact (set_distance_last_four_digits
           (set_distance_field 10042 boot_context) H).
Defined.

(** Away from positive distances nothing is shown. *)
Lemma set_distance_nonpos ct :
  distance ct <= 0 ->
  set_distance ct
  = set_display_value [# BLANK_C; BLANK_C; BLANK_C; BLANK_C] ct.
Proof.
  intros Hd. rewrite set_distance_unfold. cbv zeta.
  destruct (digit_of_nonpos (distance ct) Hd) as (H3 & H2 & H1 & H0).
  replace (0 <? digit_of (distance ct) 10000 1000) with false
    by (symmetry; apply Z.ltb_ge; lia).
  replace (0 <? digit_of (distance ct) 1000 100) with false
    by (symmetry; apply Z.ltb_ge; lia).
  replace (0 <? digit_of (distance ct) 100 10) with false
    by (symmetry; apply Z.ltb_ge; lia).
  replace (0 <? digit_of (distance ct) 10 1) with false
    by (symmetry; apply Z.ltb_ge; lia).
  reflexivity.
Qed.

(** Every symbol [set_distance] writes is the blank or a decimal digit. *)
Lemma set_distance_Forall ct :
  Forall (fun x => x = BLANK_C \/ 0 <= x <= 9)
         (vec_to_list (display_value (set_distance ct))).
Proof.
  destruct (Z.le_gt_cases (distance ct) 0) as [Hd|Hd].
  - rewrite (set_distance_nonpos ct Hd).
    cbn [display_value set_display_value vec_to_list].
    repeat (apply List.Forall_cons; [left; reflexivity|]). constructor.
  - rewrite set_distance_unfold. cbv zeta.
    destruct (digit_of_nonneg (distance ct)) as (E3 & E2 & E1 & E0); [lia|].
    rewrite E3, E2, E1, E0.
    cbn [display_value set_display_value vec_to_list].
    repeat (apply List.Forall_cons;
            [match goal with
             | |- (if ?b then _ else _) = _ \/ _ => destruct b
             end; auto; right; Z.div_mod_to_equations; lia|]).
    constructor.
Qed.

(** X1.  Whatever the distance, every symbol [set_distance] writes is the
    blank sentinel or a decimal digit, never a dash or a negative number,
    and no field but the display changes.  A distance that is not
    positive, such as the initial -1, is rendered as four blanks. *)
Theorem set_distance_symbols ct :
  set_distance ct = set_display_value (display_value (set_distance ct)) ct
  /\ (forall i : fin 4,
        display_value (set_distance ct) !!! i = BLANK_C
        \/ 0 <= display_value (set_distance ct) !!! i <= 9)
  /\ (distance ct <= 0 ->
      display_value (set_distance ct)
      = [# BLANK_C; BLANK_C; BLANK_C; BLANK_C]).
Proof.
  split; [apply set_distance_frame|]. split.
  - intros i.
    apply (Forall_vlookup_1 (fun x => x = BLANK_C \/ 0 <= x <= 9)).
    apply set_distance_Forall.
  - intros Hd. rewrite (set_distance_nonpos ct Hd). reflexivity.
Qed.

Lemma set_distance_symbols_witness :
  distance boot_context <= 0
  /\ display_value (set_distance boot_context)
     = [# BLANK_C; BLANK_C; BLANK_C; BLANK_C].
Proof.
  assert (distance boot_context <= 0) as H by (vm_compute; discriminate).
  split; [exact H|].
  exact (proj2 (proj2 (set_distance_symbols boot_context)) H).
Defined.

(** ** Debounced input: one edge per call *)

(** The iteration for button [i] leaves the other button records alone. *)
Lemma update_buttons_iter_other t r i j nc ct :
  i <> j ->
  btn (snd (update_buttons_iter t r i (nc, ct))) !!! j = btn ct !!! j.
Proof.
  intros Hne. unfold update_buttons_iter.
  destruct (negb _); [destruct (nc <? t)|]; cbn [snd];
    destruct ct as [ip dv dist cg fg gs s bt]; cbn [btn set_btn set_st];
    try reflexivity.
  now apply vlookup_insert_ne.
Qed.

Lemma update_buttons_one_changed t r nc ct :
  0 <= t -> t + BTN_DELAY <= UINT32_MAX ->
  exists k : fin 3,
    forall j, j <> k ->
      btn (snd (update_buttons t r nc ct)) !!! j = btn ct !!! j.
Proof.
  intros Ht Hwrap. unfold update_buttons. cbn [foldl].
  assert (to_uint32 (t + BTN_DELAY) = t + BTN_DELAY) as Hu
    by (apply to_uint32_small; unfold BTN_DELAY in *; lia).
  assert (forall i c, update_buttons_iter t r i (t + BTN_DELAY, c)
                      = (t + BTN_DELAY,
                         set_st (store_event (btn_event (btn c !!! i)) false
                                             (st c)) c)) as Hclosed
    by (intros i c; apply update_buttons_iter_closed; unfold BTN_DELAY; lia).
  destruct (update_buttons_iter_cases t r 0%fin nc ct) as [[E0 B0]|[_ E0]].
  2:{ exists 0%fin. intros j Hj.
      pose proof (update_buttons_iter_other t r 0%fin j nc ct
                    ltac:(congruence)) as H0.
      destruct (update_buttons_iter t r 0%fin (nc, ct)) as [nc0 ct0].
      cbn [fst snd] in *. rewrite Hu in E0. subst nc0.
      rewrite !Hclosed. cbn [snd]. rewrite <- H0.
      destruct ct0; reflexivity. }
  destruct (update_buttons_iter t r 0%fin (nc, ct)) as [nc0 ct0].
  cbn [fst snd] in E0, B0. subst nc0. rewrite <- B0.
  destruct (update_buttons_iter_cases t r 1%fin nc ct0) as [[E1 B1]|[_ E1]].
  2:{ exists 1%fin. intros j Hj.
      pose proof (update_buttons_iter_other t r 1%fin j nc ct0
                    ltac:(congruence)) as H1.
      destruct (update_buttons_iter t r 1%fin (nc, ct0)) as [nc1 ct1].
      cbn [fst snd] in *. rewrite Hu in E1. subst nc1.
      rewrite !Hclosed. cbn [snd]. rewrite <- H1.
      destruct ct1; reflexivity. }
  destruct (update_buttons_iter t r 1%fin (nc, ct0)) as [nc1 ct1].
  cbn [fst snd] in E1, B1. subst nc1. rewrite <- B1.
  exists 2%fin. intros j Hj.
  apply update_buttons_iter_other. congruence.
Qed.

(** X5.  The three buttons share one timer: away from the wrap-around of
    the millisecond counter, one call of [update_buttons] takes an edge of
    at most one button.  When the record of one button changes, the
    record of every other button is left as it was, whatever its pin
    reads. *)
Theorem update_buttons_one_edge t r nc ct (i j : fin 3) :
  0 <= t -> t + BTN_DELAY <= UINT32_MAX ->
  i <> j ->
  btn (snd (update_buttons t r nc ct)) !!! i <> btn ct !!! i ->
  btn (snd (update_buttons t r nc ct)) !!! j = btn ct !!! j.
Proof.
  intros Ht Hwrap Hij Hi.
  destruct (update_buttons_one_changed t r nc ct Ht Hwrap) as [k Hk].
  destruct (decide (j = k)) as [->|Hjk]; [|exact (Hk j Hjk)].
  now specialize (Hk i Hij).
Qed.

Lemma update_buttons_one_edge_witness :
  let all_down := fun _ : Z => 0 in
  let ct' := snd (update_buttons 30 all_down 0 boot_context) in
  btn ct' !!! 0%fin <> btn boot_context !!! 0%fin
  /\ btn ct' !!! 1%fin = btn boot_context !!! 1%fin.
Proof.
  cbv zeta.
  assert (btn (snd (update_buttons 30 (fun _ => 0) 0 boot_context)) !!! 0%fin
          <> btn boot_context !!! 0%fin) as H0
    by (vm_compute; discriminate).
  split; [exact H0|].
  exact (update_buttons_one_edge 30 (fun _ => 0) 0 boot_context
           0%fin 1%fin ltac:(lia) ltac:(vm_compute; discriminate)
           ltac:(discriminate) H0).
Defined.

Lemma debounce_without_wrap_witness :
  let step1 := update_buttons 30 (reset_pin 0) 0 boot_context in
  let step2 := update_buttons 120 (reset_pin 1) (fst step1) (snd step1) in
  btn (snd step1) <> btn boot_context
  /\ fst step2 = fst step1
  /\ btn (snd step2) = btn (snd step1)
  /\ forall i : fin 3,
       load_event (btn_event (btn (snd step1) !!! i)) (st (snd step2))
       = false.
Proof.
  cbv zeta.
  assert (btn (snd (update_buttons 30 (reset_pin 0) 0 boot_context))
          <> btn boot_context) as H by (vm_compute; discriminate).
  split; [exact H|].
  exact (debounce_without_wrap 30 120 (reset_pin 0) (reset_pin 1) 0
           boot_context (snd (update_buttons 30 (reset_pin 0) 0 boot_context))
           ltac:(lia) ltac:(vm_compute; discriminate)
           ltac:(unfold BTN_DELAY; lia) H eq_refl).
Defined.

(** ** What the handlers leave alone *)

(** No handler writes the distance, the sensor conditions [satcon] and
    [reached], the three edge flags or a button record. *)
Lemma handle_frame_eq h polls ct ct' next out :
  handle h polls ct = Some (ct', next, out) ->
  ct' = mk_context (input_pos ct') (display_value ct') (distance ct)
          (current_goal ct') (final_goal ct') (goals ct')
          (mk_state (st_satcon (st ct)) (st_reached (st ct))
             (st_passwd (st ct')) (st_fetched (st ct'))
             (st_completed (st ct')) (st_reset (st ct)) (st_pos (st ct))
             (st_count (st ct)))
          (btn ct).
Proof.
  destruct h; cbn [handle].
  - intros [= E _]. pose proof (main_handler_refresh ct) as P.
    cbv zeta in P. rewrite E in P.
    rewrite set_distance_frame in P.
    destruct ct as [ip dv dist cg fg gs [s1 s2 s3 s4 s5 s6 s7 s8] bt].
    cbn in P. destruct s4, s6, s1, s2; cbn in P; injection P as -> _;
      reflexivity.
  - intros [= E _]. revert E. unfold fetch_handler.
    rewrite fetch_loop_first_fix.
    destruct (first_fix polls) as [fx|];
      match goal with
      | |- context [if ?b then _ else _] => destruct b
      end; intros [= <- _]; destruct ct as [ip dv dist cg fg gs [] bt];
      reflexivity.
  - unfold satcon_handler. destruct (negb _); intros [= <- _ _];
      destruct ct as [ip dv dist cg fg gs [] bt]; reflexivity.
  - destruct (subgoal_handler ct) as [[ct1 n1]|] eqn:E;
      cbn [mbind option_bind]; [|discriminate].
    intros [= <- _ _]. rewrite subgoal_handler_unfold in E.
    destruct (subgoal_pos ct) as [c1|] eqn:E1; cbn [mbind option_bind] in E;
      [|discriminate].
    destruct (subgoal_count c1) as [c2|] eqn:E2;
      cbn [mbind option_bind] in E; [|discriminate].
    destruct (index 10 (current_goal c2)) as [g|];
      cbn [mbind option_bind] in E; [|discriminate].
    cbv zeta in E. injection E as <- _.
    apply subgoal_pos_frame in E1. apply subgoal_count_frame in E2.
    rewrite E2, E1. destruct ct as [ip dv dist cg fg gs [] bt].
    reflexivity.
  - intros [= E _]. pose proof (next_goal_handler_unfold ct) as P.
    rewrite E in P. destruct (current_goal ct =? final_goal ct);
      injection P as -> _; destruct ct as [ip dv dist cg fg gs [] bt];
      reflexivity.
  - unfold complete_handler. destruct (negb _); intros [= <- _ _];
      destruct ct as [ip dv dist cg fg gs [] bt]; reflexivity.
Qed.

(** Only [fetch_handler] writes the goals, the final goal index and
    [fetched]; only it and [next_goal_handler] write the current goal
    index. *)
Lemma handle_goals h polls ct ct' next out :
  handle h polls ct = Some (ct', next, out) ->
  h <> FETCH ->
  goals ct' = goals ct /\ final_goal ct' = final_goal ct
  /\ st_fetched (st ct') = st_fetched (st ct)
  /\ (h <> NEXT_GOAL -> current_goal ct' = current_goal ct).
Proof.
  destruct h; cbn [handle]; try congruence.
  - intros [= E _] _. pose proof (main_handler_refresh ct) as P.
    cbv zeta in P. rewrite E in P. rewrite set_distance_frame in P.
    destruct ct as [ip dv dist cg fg gs [s1 s2 s3 s4 s5 s6 s7 s8] bt].
    cbn in P. destruct s4, s6, s1, s2; cbn in P; injection P as -> _;
      repeat split.
  - unfold satcon_handler. destruct (negb _); intros [= <- _ _];
      repeat split.
  - destruct (subgoal_handler ct) as [[ct1 n1]|] eqn:E;
      cbn [mbind option_bind]; [|discriminate].
    intros [= <- _ _] _. rewrite subgoal_handler_unfold in E.
    destruct (subgoal_pos ct) as [c1|] eqn:E1; cbn [mbind option_bind] in E;
      [|discriminate].
    destruct (subgoal_count c1) as [c2|] eqn:E2;
      cbn [mbind option_bind] in E; [|discriminate].
    destruct (index 10 (current_goal c2)) as [g|];
      cbn [mbind option_bind] in E; [|discriminate].
    cbv zeta in E. injection E as <- _.
    apply subgoal_pos_frame in E1. apply subgoal_count_frame in E2.
    rewrite E2, E1. destruct ct as [ip dv dist cg fg gs [] bt].
    repeat split.
  - intros [= E _] _. pose proof (next_goal_handler_unfold ct) as P.
    rewrite E in P. destruct (current_goal ct =? final_goal ct);
      injection P as -> _; destruct ct as [ip dv dist cg fg gs [] bt];
      repeat split; congruence.
  - unfold complete_handler. destruct (negb _); intros [= <- _ _] _;
      destruct ct as [ip dv dist cg fg gs [] bt]; repeat split.
Qed.

(** X6.  Frame of the state machine: whichever handler runs, it leaves
    the distance, the conditions [satcon] and [reached], the three edge
    flags and the button records as they were; and unless it is
    [fetch_handler] it leaves the goals, the final goal index and the
    condition [fetched] as they were too. *)
Theorem handle_frame h polls ct ct' next out :
  handle h polls ct = Some (ct', next, out) ->
  distance ct' = distance ct
  /\ btn ct' = btn ct
  /\ st_satcon (st ct') = st_satcon (st ct)
  /\ st_reached (st ct') = st_reached (st ct)
  /\ st_reset (st ct') = st_reset (st ct)
  /\ st_pos (st ct') = st_pos (st ct)
  /\ st_count (st ct') = st_count (st ct)
  /\ (h <> FETCH ->
      goals ct' = goals ct /\ final_goal ct' = final_goal ct
      /\ st_fetched (st ct') = st_fetched (st ct)).
Proof.
  intros E. pose proof (handle_frame_eq _ _ _ _ _ _ E) as F.
  split; [rewrite F; reflexivity|]. split; [rewrite F; reflexivity|].
  split; [rewrite F; reflexivity|]. split; [rewrite F; reflexivity|].
  split; [rewrite F; reflexivity|]. split; [rewrite F; reflexivity|].
  split; [rewrite F; reflexivity|].
  intros Hh. destruct (handle_goals _ _ _ _ _ _ E Hh) as (H1 & H2 & H3 & _).
  auto.
Qed.

Lemma handle_frame_witness :
  exists ct',
    handle FETCH [Some here] boot_context = Some (ct', MAIN, [])
    /\ distance ct' = distance boot_context
    /\ btn ct' = btn boot_context
    /\ st_satcon (st ct') = st_satcon (st boot_context).
Proof.
  eexists. split; [vm_compute; reflexivity|].
  match goal with
  | |- distance ?c = _ /\ _ =>
      destruct (handle_frame FETCH [Some here] boot_context c MAIN [])
        as (H1 & H2 & H3 & _); [vm_compute; reflexivity|]
  end.
  exact (conj H1 (conj H2 H3)).
Defined.

(** ** FETCH *)

(** [fetch_handler] with its polling loop resolved to the first decoded
    sentence. *)
Lemma fetch_handler_unfold polls ct :
  fetch_handler polls ct
  = match first_fix polls with
    | None => (set_st (set_st_fetched false (st ct)) ct, FETCH)
    | Some fx =>
        (set_st (set_st_fetched true (st ct))
           (set_final_goal 0
              (set_current_goal 0
                 (set_goals
                    (vinsert 0%fin
                       (mk_goal (deg_to_rad (fix_lat fx))
                                (deg_to_rad (fix_lng fx)) [# 0; 1; 2; 3])
                       (goals ct)) ct))),
         if st_reset (st ct) then FETCH else MAIN)
    end.
Proof.
  unfold fetch_handler. rewrite fetch_loop_first_fix.
  destruct (first_fix polls) as [fx|];
    destruct ct as [ip dv dist cg fg gs [s1 s2 s3 s4 s5 s6 s7 s8] bt];
    cbn; destruct s6; reflexivity.
Qed.

(** X7.  What [fetch_handler] leaves behind.  It moves to MAIN exactly
    when reset is not pressed and a sentence was decoded, and stays in
    FETCH otherwise.  [fetched] afterwards tells whether a sentence was
    decoded in this very call: a call without one clears it, also when
    goals had been fetched before, and changes nothing else.  A decoded
    sentence stores one goal at index 0, at the reported position and
    with the password 0, 1, 2, 3, sets both goal indices to 0 and leaves
    the other nine goals alone. *)
Theorem fetch_handler_outcome polls ct :
  let ct' := fst (fetch_handler polls ct) in
  let next := snd (fetch_handler polls ct) in
  (next = MAIN <-> st_reset (st ct) = false /\ first_fix polls <> None)
  /\ (next = MAIN \/ next = FETCH)
  /\ (st_fetched (st ct') = true <-> first_fix polls <> None)
  /\ (first_fix polls = None ->
      ct' = set_st (set_st_fetched false (st ct)) ct)
  /\ (forall fx,
        first_fix polls = Some fx ->
        current_goal ct' = 0 /\ final_goal ct' = 0
        /\ goals ct' !!! 0%fin
           = mk_goal (deg_to_rad (fix_lat fx)) (deg_to_rad (fix_lng fx))
                     [# 0; 1; 2; 3]
        /\ forall j : fin 10, j <> 0%fin -> goals ct' !!! j = goals ct !!! j).
Proof.
  cbv zeta. rewrite fetch_handler_unfold.
  destruct (first_fix polls) as [fx|]; cbn [fst snd].
  - split; [|split; [|split; [|split]]].
    + destruct (st_reset (st ct)); split; try discriminate; auto.
      intros [? _]. discriminate.
    + destruct (st_reset (st ct)); auto.
    + destruct ct as [ip dv dist cg fg gs [s1 s2 s3 s4 s5 s6 s7 s8] bt].
      cbn. split; [discriminate|reflexivity].
    + discriminate.
    + intros fx' [= <-].
      destruct ct as [ip dv dist cg fg gs [s1 s2 s3 s4 s5 s6 s7 s8] bt].
      cbn [fst current_goal final_goal goals set_st set_final_goal
             set_current_goal set_goals].
      split; [reflexivity|]. split; [reflexivity|].
      split; [apply vlookup_insert|].
      intros j Hj. apply vlookup_insert_ne. congruence.
  - split; [|split; [|split; [|split]]].
    + split; [discriminate|]. intros [_ H]. congruence.
    + auto.
    + destruct ct as [ip dv dist cg fg gs [s1 s2 s3 s4 s5 s6 s7 s8] bt].
      cbn. split; [discriminate|congruence].
    + reflexivity.
    + discriminate.
Qed.

Lemma fetch_handler_outcome_witness :
  let ct' := fst (fetch_handler [None; Some here] boot_context) in
  current_goal ct' = 0 /\ final_goal ct' = 0
  /\ goals ct' !!! 0%fin
     = mk_goal (deg_to_rad (fix_lat here)) (deg_to_rad (fix_lng here))
               [# 0; 1; 2; 3]
  /\ forall j : fin 10,
       j <> 0%fin -> goals ct' !!! j = goals boot_context !!! j.
Proof.
  exact (proj2 (proj2 (proj2 (proj2
           (fetch_handler_outcome [None; Some here] boot_context))))
           here eq_refl).
Defined.

Lemma fin4_forall (P : fin 4 -> Prop) :
  P 0%fin -> P 1%fin -> P 2%fin -> P 3%fin -> forall i, P i.
Proof.
  intros P0 P1 P2 P3 i.
  inv_fin i; [exact P0|]. intros i.
  inv_fin i; [exact P1|]. intros i.
  inv_fin i; [exact P2|]. intros i.
  inv_fin i; [exact P3|]. intros i. inv_fin i.
Qed.

Lemma index_fin4 (i : fin 4) : index 4 (Z.of_nat (fin_to_nat i)) = Some i.
Proof. revert i. apply fin4_forall; reflexivity. Qed.

(** ** The cursor block *)

(** One cursor move: a dash under the cursor becomes a blank, the cursor
    moves on circularly, and its new position is marked with a dash. *)
Lemma subgoal_pos_move ct i :
  index 4 (input_pos ct) = Some i ->
  st_pos (st ct) = true ->
  subgoal_pos ct
  = Some (store_display (fin4_next i) DASH_C
            (set_input_pos (Z.of_nat (fin_to_nat (fin4_next i)))
               (if display_value ct !!! i =? DASH_C
                then store_display i BLANK_C ct else ct))).
Proof.
  intros Hi Hpos. unfold subgoal_pos. rewrite Hpos, Hi.
  cbn [mbind option_bind].
  set (ct2 := if _ =? DASH_C then _ else ct).
  assert (input_pos ct2 = input_pos ct) as Hip2
    by (subst ct2; destruct (_ =? DASH_C); reflexivity).
  cbn [input_pos set_input_pos]. rewrite Hip2.
  apply index_Some in Hi. destruct Hi as [_ <-].
  assert (forall j : fin 4,
            Z.rem (to_int (Z.of_nat (fin_to_nat j) + 1)) 4
            = Z.of_nat (fin_to_nat (fin4_next j))) as ->
    by (apply fin4_forall; reflexivity).
  rewrite index_fin4. reflexivity.
Qed.

(** One turn of [subgoal_handler] in which only the cursor button
    fired. *)
Lemma subgoal_handler_move ct i g :
  index 4 (input_pos ct) = Some i ->
  index 10 (current_goal ct) = Some g ->
  st_pos (st ct) = true ->
  st_count (st ct) = false ->
  exists ct' next,
    subgoal_handler ct = Some (ct', next)
    /\ input_pos ct' = Z.of_nat (fin_to_nat (fin4_next i))
    /\ display_value ct'
       = vinsert (fin4_next i) DASH_C
           (if display_value ct !!! i =? DASH_C
            then vinsert i BLANK_C (display_value ct)
            else display_value ct)
    /\ current_goal ct' = current_goal ct
    /\ st_pos (st ct') = true
    /\ st_count (st ct') = false.
Proof.
  intros Hi Hg Hpos Hcount.
  rewrite subgoal_handler_unfold, (subgoal_pos_move ct i Hi Hpos).
  cbn [mbind option_bind]. unfold subgoal_count.
  set (c1 := store_display _ _ _).
  assert (st c1 = st ct /\ current_goal c1 = current_goal ct)
    as [Hst Hcg]
    by (subst c1; destruct ct; destruct (_ =? DASH_C); split; reflexivity).
  rewrite Hst, Hcount. cbn [mbind option_bind]. rewrite Hcg, Hg.
  cbn [mbind option_bind]. cbv zeta.
  eexists _, _. split; [reflexivity|].
  subst c1.
  destruct ct as [ip dv dist cg fg gs [s1 s2 s3 s4 s5 s6 s7 s8] bt].
  cbn [st st_pos st_count] in Hpos, Hcount. subst s7 s8.
  destruct (_ =? DASH_C); repeat split.
Qed.

(** X8.  Four turns of [subgoal_handler] in which only the cursor
    button fired bring the cursor back to where it was and clear the
    input: whatever the display showed, it then shows a dash at the
    cursor and blanks elsewhere. *)
Theorem subgoal_cursor_full_circle ct i g :
  index 4 (input_pos ct) = Some i ->
  index 10 (current_goal ct) = Some g ->
  st_pos (st ct) = true ->
  st_count (st ct) = false ->
  exists c1 c2 c3 c4 n1 n2 n3 n4,
    subgoal_handler ct = Some (c1, n1)
    /\ subgoal_handler c1 = Some (c2, n2)
    /\ subgoal_handler c2 = Some (c3, n3)
    /\ subgoal_handler c3 = Some (c4, n4)
    /\ input_pos c4 = input_pos ct
    /\ display_value c4
       = vinsert i DASH_C [# BLANK_C; BLANK_C; BLANK_C; BLANK_C].
Proof.
  intros Hi Hg Hpos Hcount.
  destruct (subgoal_handler_move ct i g Hi Hg Hpos Hcount)
    as (c1 & n1 & E1 & P1 & D1 & G1 & Hp1 & Hc1).
  destruct (subgoal_handler_move c1 (fin4_next i) g)
    as (c2 & n2 & E2 & P2 & D2 & G2 & Hp2 & Hc2);
    [rewrite P1; apply index_fin4|congruence|assumption..|].
  destruct (subgoal_handler_move c2 (fin4_next (fin4_next i)) g)
    as (c3 & n3 & E3 & P3 & D3 & G3 & Hp3 & Hc3);
    [rewrite P2; apply index_fin4|congruence|assumption..|].
  destruct (subgoal_handler_move c3 (fin4_next (fin4_next (fin4_next i))) g)
    as (c4 & n4 & E4 & P4 & D4 & G4 & Hp4 & Hc4);
    [rewrite P3; apply index_fin4|congruence|assumption..|].
  exists c1, c2, c3, c4, n1, n2, n3, n4.
  repeat (split; [assumption|]).
  apply index_Some in Hi. destruct Hi as [_ Hi].
  rewrite P4, D4, D3, D2, D1, <- Hi.
  clear. generalize (display_value ct). intros dv.
  destruct (dv !!! i =? DASH_C);
    inv_vec dv; intros a0 a1 a2 a3;
    pattern i; apply fin4_forall; split; reflexivity.
Qed.

Lemma subgoal_cursor_full_circle_witness :
  let ct := set_input_pos 2
              (set_display_value [# 7; 3; DASH_C; 9]
                 (set_st (set_st_pos true (st fetched_context))
                         fetched_context)) in
  exists c1 c2 c3 c4 n1 n2 n3 n4,
    subgoal_handler ct = Some (c1, n1)
    /\ subgoal_handler c1 = Some (c2, n2)
    /\ subgoal_handler c2 = Some (c3, n3)
    /\ subgoal_handler c3 = Some (c4, n4)
    /\ input_pos c4 = 2
    /\ display_value c4 = [# BLANK_C; BLANK_C; DASH_C; BLANK_C].
Proof.
  cbv zeta.
  match goal with
  | |- context [subgoal_handler ?c = Some (_, _) /\ _] =>
      exact (subgoal_cursor_full_circle c 2%fin 0%fin
               eq_refl eq_refl eq_refl eq_refl)
  end.
Defined.

Section LocFacts.

Variables sin cos round : float -> float.
Variable atan2 : float -> float -> float.
Variable double_to_int : float -> Z.

Local Abbreviation locate' := (locate sin cos round atan2 double_to_int).
Local Abbreviation loc_loop' := (loc_loop sin cos round atan2 double_to_int).
Local Abbreviation update_loc' :=
  (update_loc sin cos round atan2 double_to_int).

Lemma loc_loop_first_fix polls t lu ct :
  loc_loop' polls t lu ct
  = match first_fix polls with
    | Some fx => locate' fx t lu ct
    | None => Some (lu, ct)
    end.
Proof.
  induction polls as [|[fx|] polls IH]; cbn [loc_loop first_fix]; auto.
Qed.

(** [update_loc] unfolded: the polling loop resolved to its first decoded
    sentence. *)
Lemma update_loc_unfold inp lu ct :
  update_loc' inp lu ct
  = (ct1 ← match first_fix (loc_polls inp) with
            | Some fx =>
                if st_fetched (st ct) then
                  g ← index 10 (current_goal ct);
                  let d := haversine sin cos round atan2 double_to_int
                             (goal_lt (goals ct !!! g))
                             (goal_ln (goals ct !!! g))
                             (deg_to_rad (fix_lat fx))
                             (deg_to_rad (fix_lng fx)) in
                  Some (set_st (set_st_reached (d <=? DST_TOLERANCE) (st ct))
                          (set_distance_field d ct))
                else Some ct
            | None => Some ct
            end;
     Some (refreshed inp lu,
           set_st (set_st_satcon
                     (loc_exit_time inp
                      <? to_uint32 (refreshed inp lu + GPS_TIMEOUT))
                     (st ct1)) ct1)).
Proof.
  unfold update_loc, refreshed. rewrite loc_loop_first_fix.
  destruct (first_fix (loc_polls inp)) as [fx|]; [|reflexivity].
  unfold locate. destruct (st_fetched (st ct)).
  - destruct (index 10 (current_goal ct)) as [g|]; [|reflexivity].
    cbn [mbind option_bind]. cbv zeta.
    destruct (3 <=? fix_satellites fx); cbn [mbind option_bind];
      destruct ct as [ip dv dist cg fg gs [] bt]; reflexivity.
  - cbn [mbind option_bind].
    destruct (3 <=? fix_satellites fx); cbn [mbind option_bind];
      destruct ct as [ip dv dist cg fg gs [] bt]; reflexivity.
Qed.

(** X9.  As its comment promises, [update_loc] on a context without
    fetched goals only updates the satellite connection status: it always
    returns, and the context it returns differs from the one it was given
    in [satcon] alone. *)
Theorem update_loc_not_fetched inp lu ct :
  st_fetched (st ct) = false ->
  update_loc' inp lu ct
  = Some (refreshed inp lu,
          set_st (set_st_satcon
                    (loc_exit_time inp
                     <? to_uint32 (refreshed inp lu + GPS_TIMEOUT))
                    (st ct)) ct).
Proof.
  intros Hf. rewrite update_loc_unfold, Hf.
  destruct (first_fix (loc_polls inp)); reflexivity.
Qed.

(** The satellite connection status [update_loc] leaves is decided by
    the clock alone. *)
Lemma update_loc_satcon inp lu ct lu' ct' :
  update_loc' inp lu ct = Some (lu', ct') ->
  lu' = refreshed inp lu
  /\ st_satcon (st ct')
     = (loc_exit_time inp <? to_uint32 (lu' + GPS_TIMEOUT)).
Proof.
  rewrite update_loc_unfold.
  destruct (match first_fix (loc_polls inp) with
            | Some _ => _ | None => _ end) as [ct1|];
    cbn [mbind option_bind]; [|discriminate].
  intros [= <- <-]. split; [reflexivity|]. destruct ct1; reflexivity.
Qed.

(** X10.  While no sentence with three satellites or more is decoded,
    [update_loc] keeps [last_update], and away from the wrap-around of
    the millisecond counter it reports the connection as standing exactly
    as long as fewer than [GPS_TIMEOUT] milliseconds have passed since
    [last_update]. *)
Theorem update_loc_timeout inp t0 ct lu' ct' :
  update_loc' inp (Some t0) ct = Some (lu', ct') ->
  (forall fx,
      first_fix (loc_polls inp) = Some fx -> fix_satellites fx < 3) ->
  0 <= t0 -> t0 + GPS_TIMEOUT <= UINT32_MAX ->
  lu' = t0
  /\ (st_satcon (st ct') = true
      <-> loc_exit_time inp < t0 + GPS_TIMEOUT).
Proof.
  intros E Hfix H0 Hmax.
  destruct (update_loc_satcon _ _ _ _ _ E) as [Hlu ->].
  assert (Hr : refreshed inp (Some t0) = t0).
  { unfold refreshed. destruct (first_fix (loc_polls inp)) as [fx|];
      [|reflexivity].
    specialize (Hfix fx eq_refl).
    destruct (Z.leb_spec 3 (fix_satellites fx)); [lia|reflexivity]. }
  rewrite Hlu, Hr. split; [reflexivity|].
  rewrite to_uint32_small by (unfold GPS_TIMEOUT, UINT32_MAX in *; lia).
  apply Z.ltb_lt.
Qed.

(** X11.  In the last [GPS_TIMEOUT] milliseconds before the millisecond
    counter wraps around, [last_update + GPS_TIMEOUT] wraps to a small
    number: the connection is reported lost even in the very call that
    decoded a sentence with enough satellites. *)
Theorem update_loc_satcon_wraps inp lu ct lu' ct' :
  update_loc' inp lu ct = Some (lu', ct') ->
  UINT32_MAX - GPS_TIMEOUT < lu' <= loc_exit_time inp ->
  loc_exit_time inp <= UINT32_MAX ->
  st_satcon (st ct') = false.
Proof.
  intros E Hlu Hexit. destruct (update_loc_satcon _ _ _ _ _ E) as [_ ->].
  apply Z.ltb_ge. unfold to_uint32, wrap_unsigned, GPS_TIMEOUT, UINT32_MAX in *.
  change (2 ^ 32) with 4294967296.
  Z.div_mod_to_equations. lia.
Qed.

End LocFacts.

(** ** The distance of [update_loc] *)

(** A finite double minus itself is +0. *)
Lemma float_sub_diag x : finite x = true -> (x - x)%float = 0%float.
Proof.
  unfold finite. intros H. apply FloatAxioms.Prim2SF_inj.
  rewrite FloatAxioms.sub_spec.
  destruct (FloatOps.Prim2SF x) as [s|s| |s m e]; try discriminate.
  - destruct s; reflexivity.
  - unfold FloatAxioms.SF64sub, SpecFloat.SFsub. cbv zeta.
    rewrite Z.min_id. unfold SpecFloat.shl_align.
    rewrite !Z.sub_diag. reflexivity.
Qed.

(** A zero times a finite double is a zero. *)
Lemma float_mul_zero z y s :
  FloatOps.Prim2SF z = SpecFloat.S754_zero s ->
  finite y = true ->
  exists s', FloatOps.Prim2SF (z * y) = SpecFloat.S754_zero s'.
Proof.
  unfold finite. intros Hz Hy. rewrite FloatAxioms.mul_spec, Hz.
  destruct (FloatOps.Prim2SF y) as [sy|sy| |sy m e]; try discriminate;
    eexists; reflexivity.
Qed.

(** +0 plus a zero of either sign is +0. *)
Lemma float_add_zero z s :
  FloatOps.Prim2SF z = SpecFloat.S754_zero s -> (0 + z)%float = 0%float.
Proof.
  intros Hz. apply FloatAxioms.Prim2SF_inj.
  rewrite FloatAxioms.add_spec, Hz. destruct s; reflexivity.
Qed.

Section DistanceFacts.

Variables sin cos round : float -> float.
Variable atan2 : float -> float -> float.
Variable double_to_int : float -> Z.

(** C5.  The distance from a position to itself is 0, for every
    latitude and longitude that are finite doubles and every C library
    that does what the C standard asks at the points involved: [sin],
    [atan2] and [round] return +0 at +0 (and at +0, 1), the cast takes
    0.0 to 0, and [cos] of the latitude is finite.  Both differences are
    +0, so is the haversine term, and nothing is rounded on the way.
    Symmetry is not part of the statement: it fails, as the example
    after this theorem shows. *)
Theorem haversine_self lt ln :
  finite lt = true -> finite ln = true -> finite (cos lt) = true ->
  sin 0 = 0%float -> atan2 0 1 = 0%float -> round 0 = 0%float ->
  double_to_int 0 = 0 ->
  haversine sin cos round atan2 double_to_int lt ln lt ln = 0.
Proof.
  intros Hlt Hln Hcos Hsin Hatan Hround Hint.
  unfold haversine. cbv zeta.
  rewrite !float_sub_diag by assumption.
  change (0 / 2)%float with 0%float. rewrite Hsin.
  change (0 * 0)%float with 0%float.
  destruct (float_mul_zero 0 (cos lt) false eq_refl Hcos) as [s1 H1].
  destruct (float_mul_zero _ (cos lt) s1 H1 Hcos) as [s2 H2].
  rewrite (float_add_zero _ s2 H2).
  change (sqrt 0) with 0%float. change (sqrt (1 - 0)) with 1%float.
  rewrite Hatan. change (2 * 0 * EARTH_RADIUS)%float with 0%float.
  rewrite Hround. exact Hint.
Qed.

End DistanceFacts.

Lemma haversine_self_witness : distance_between there there = 0.
Proof.
  unfold distance_between. apply haversine_self.
  - vm_compute. reflexivity.
  - vm_compute. reflexivity.
  - vm_compute. reflexivity.
  - vm_compute. reflexivity.
  - vm_compute. reflexivity.
  - vm_compute. reflexivity.
  - vm_compute. reflexivity.
Defined.

(** C5, as the specification states it, fails between [here] and
    [there]: the distance from [here] to [there] is 644 m, the distance
    from [there] to [here] 645 m.  The two directions multiply the
    squared sine of the longitude difference by the two cosines in the
    other order, the products differ in the last bit, and the distances
    come out just below and exactly at 644.5 m. *)
Lemma haversine_not_symmetric :
  distance_between here there = 644 /\ distance_between there here = 645.
Proof.
  split; vm_compute; reflexivity.
Qed.

(** ** The frame of [update_buttons] *)

Lemma update_buttons_iter_frame t r i nc ct :
  same_but_buttons ct (snd (update_buttons_iter t r i (nc, ct))).
Proof.
  unfold update_buttons_iter, same_but_buttons.
  destruct ct as [ip dv dist cg fg gs [s1 s2 s3 s4 s5 s6 s7 s8] bt].
  destruct (negb _); [destruct (nc <? t)|]; cbn [snd];
    cbn [btn st set_st set_btn]; destruct (btn_event (bt !!! i));
    reflexivity.
Qed.

Lemma same_but_buttons_trans c1 c2 c3 :
  same_but_buttons c1 c2 -> same_but_buttons c2 c3 -> same_but_buttons c1 c3.
Proof.
  unfold same_but_buttons.
  destruct c1 as [? ? ? ? ? ? [] ?], c2 as [? ? ? ? ? ? [] ?],
           c3 as [? ? ? ? ? ? [] ?].
  cbn. congruence.
Qed.

Lemma update_buttons_frame t r nc ct :
  same_but_buttons ct (snd (update_buttons t r nc ct)).
Proof.
  unfold update_buttons. cbn [foldl].
  pose proof (update_buttons_iter_frame t r 0%fin nc ct) as F0.
  destruct (update_buttons_iter t r 0%fin (nc, ct)) as [n0 c0].
  pose proof (update_buttons_iter_frame t r 1%fin n0 c0) as F1.
  destruct (update_buttons_iter t r 1%fin (n0, c0)) as [n1 c1].
  pose proof (update_buttons_iter_frame t r 2%fin n1 c1) as F2.
  cbn [snd] in *.
  eauto using same_but_buttons_trans.
Qed.

(** ** The invariant of the control loop *)

Lemma sane_update_buttons h t r nc ct :
  sane h ct -> sane h (snd (update_buttons t r nc ct)).
Proof.
  intros S. pose proof (update_buttons_frame t r nc ct) as F.
  unfold same_but_buttons in F. unfold sane in *. rewrite F. exact S.
Qed.

(** Where each handler can go. *)
Lemma handle_next h polls ct ct' next out :
  handle h polls ct = Some (ct', next, out) ->
  match h with
  | MAIN => next = MAIN \/ next = FETCH \/ next = SATCON
            \/ (next = SUBGOAL /\ st_reached (st ct) = true)
  | FETCH => next = FETCH \/ next = MAIN
  | SATCON => next = SATCON \/ next = MAIN
  | SUBGOAL => next <> COMPLETE
  | NEXT_GOAL => next = COMPLETE \/ next = MAIN
  | COMPLETE => next = COMPLETE \/ next = FETCH
  end.
Proof.
  destruct h; cbn [handle].
  - intros [= E _]. pose proof (main_handler_refresh ct) as P.
    cbv zeta in P. rewrite E in P.
    destruct (st_reset (st ct)), (st_satcon (st ct)), (st_reached (st ct));
      cbn in P; injection P as _ <-; auto.
  - intros [= E _]. revert E. unfold fetch_handler.
    destruct (_ || _); intros [= _ <-]; auto.
  - unfold satcon_handler. destruct (negb _); intros [= _ <- _]; auto.
  - destruct (subgoal_handler ct) as [[ct1 n1]|] eqn:E;
      cbn [mbind option_bind]; [|discriminate].
    intros [= _ <- _]. rewrite subgoal_handler_unfold in E.
    destruct (subgoal_pos ct ≫= subgoal_count) as [c2|];
      cbn [mbind option_bind] in E; [|discriminate].
    destruct (index 10 (current_goal c2)) as [g|];
      cbn [mbind option_bind] in E; [|discriminate].
    cbv zeta in E. injection E as _ <-.
    repeat match goal with
           | |- context [if ?b then _ else _] => destruct b
           end; discriminate.
  - intros [= E _]. rewrite next_goal_handler_unfold in E.
    destruct (_ =? _); injection E as _ <-; auto.
  - unfold complete_handler. destruct (negb _); intros [= _ <- _]; auto.
Qed.

Lemma sane_handle h polls ct ct' next out :
  sane h ct ->
  handle h polls ct = Some (ct', next, out) ->
  sane next ct'.
Proof.
  intros (Hcg & Hfg & Hreach & Hip) E.
  pose proof (handle_frame_eq _ _ _ _ _ _ E) as F.
  pose proof (handle_next _ _ _ _ _ _ E) as N.
  pose proof (handle_input_pos _ _ _ _ _ _ Hip E) as Hip'.
  assert (distance ct' = distance ct
          /\ st_reached (st ct') = st_reached (st ct)) as [Hd Hr]
    by (rewrite F; split; reflexivity).
  unfold sane. rewrite Hd, Hr.
  assert (current_goal ct' = 0
          /\ (final_goal ct' = 0
              \/ (final_goal ct' = -1 /\ st_reached (st ct) = false
                  /\ st_fetched (st ct') = false
                  /\ (next = MAIN \/ next = FETCH \/ next = SATCON))))
    as [Hcg' Hfg']; [|auto].
  assert (h = FETCH \/ h <> FETCH) as [->|Hh]
    by (destruct h; auto; right; discriminate).
  { cbn [handle] in E. injection E as E _.
    rewrite fetch_handler_unfold in E.
    destruct (first_fix polls) as [fx|]; injection E as <- <-.
    - split; [reflexivity|]. left. reflexivity.
    - split; [destruct ct; exact Hcg|].
      destruct Hfg as [Hfg|(Hfg & Hr0 & Hf0 & _)];
        [left|right]; destruct ct; cbn in *; auto 10. }
  destruct (handle_goals _ _ _ _ _ _ E Hh) as (_ & Hfin & Hfet & Hcur).
  assert (h = NEXT_GOAL \/ h <> NEXT_GOAL) as [->|Hh']
    by (destruct h; auto; right; discriminate).
  { destruct Hfg as [Hfg|(_ & _ & _ & [|[|]])]; try discriminate.
    cbn [handle] in E. injection E as E _.
    rewrite next_goal_handler_unfold, Hcg, Hfg in E.
    change (0 =? 0) with true in E. cbv iota in E. injection E as <- _.
    split; [destruct ct; exact Hcg|]. left. destruct ct; exact Hfg. }
  rewrite (Hcur Hh'), Hfin, Hfet. split; [exact Hcg|].
  destruct Hfg as [Hfg|(Hfg & Hr0 & Hf0 & Hh3)]; [left; exact Hfg|].
  right. repeat split; try assumption.
  destruct Hh3 as [-> | [-> | ->]]; try congruence.
  - destruct N as [|[|[|[_ N]]]]; auto. congruence.
  - destruct N as [|]; auto.
Qed.

Section RunFacts.

Variables sin cos round : float -> float.
Variable atan2 : float -> float -> float.
Variable double_to_int : float -> Z.
Variable encodeDigit : Z -> Z.

Local Abbreviation update_loc' :=
  (update_loc sin cos round atan2 double_to_int).
Local Abbreviation loop' :=
  (loop sin cos round atan2 double_to_int encodeDigit).
Local Abbreviation run' :=
  (run sin cos round atan2 double_to_int encodeDigit).

Lemma sane_update_loc h inp lu ct :
  sane h ct ->
  exists lu' ct', update_loc' inp lu ct = Some (lu', ct') /\ sane h ct'.
Proof.
  intros (Hcg & Hfg & Hreach & Hip). rewrite update_loc_unfold.
  destruct (first_fix (loc_polls inp)) as [fx|].
  2:{ cbn [mbind option_bind]. eexists _, _. split; [reflexivity|].
      destruct ct as [ip dv dist cg fg gs [s1 s2 s3 s4 s5 s6 s7 s8] bt].
      unfold sane. cbn in *. tauto. }
  destruct (st_fetched (st ct)) eqn:Hf.
  2:{ cbn [mbind option_bind]. eexists _, _. split; [reflexivity|].
      destruct ct as [ip dv dist cg fg gs [s1 s2 s3 s4 s5 s6 s7 s8] bt].
      unfold sane. cbn in *. tauto. }
  rewrite Hcg. change (index 10 0) with (Some (0%fin : fin 10)).
  cbn [mbind option_bind]. cbv zeta.
  set (d := haversine _ _ _ _ _ _ _ _ _).
  eexists _, _. split; [reflexivity|].
  destruct Hfg as [Hfg|(_ & _ & Hf0 & _)]; [|congruence].
  destruct ct as [ip dv dist cg fg gs [s1 s2 s3 s4 s5 s6 s7 s8] bt].
  unfold sane. cbn in *.
  split; [exact Hcg|]. split; [left; exact Hfg|]. split; [|exact Hip].
  intros H. now apply Z.leb_le.
Qed.

Lemma sane_loop inp m :
  sane (handler_g m) (ct_g m) ->
  exists m' out,
    loop' inp m = Some (m', out) /\ sane (handler_g m') (ct_g m').
Proof.
  intros S. unfold loop.
  destruct (sane_update_loc _ (in_loc inp) (last_update m) _ S)
    as (lu & ct1 & E1 & S1).
  rewrite E1. cbn [mbind option_bind].
  pose proof (sane_update_buttons _ (in_time inp) (in_pins inp)
                (next_check m) _ S1) as S2.
  destruct (update_buttons _ _ _ ct1) as [nc ct2]. cbn [snd] in S2.
  destruct (handle_defined (handler_g m) (in_polls inp) ct2)
    as [[[ct3 h] o] E3].
  { apply S2. }
  { destruct S2 as (-> & _). lia. }
  rewrite E3. cbn [mbind option_bind].
  eexists _, _. split; [reflexivity|]. cbn [ct_g handler_g].
  exact (sane_handle _ _ _ _ _ _ S2 E3).
Qed.

Lemma sane_run inputs m :
  sane (handler_g m) (ct_g m) ->
  exists m', run' inputs m = Some m' /\ sane (handler_g m') (ct_g m').
Proof.
  revert m. induction inputs as [|inp inputs IH]; intros m S; cbn [run].
  - eauto.
  - destruct (sane_loop inp m S) as (m1 & out & E & S1).
    rewrite E. cbn [mbind option_bind]. exact (IH m1 S1).
Qed.

Lemma sane_setup ct : sane (handler_g (setup ct)) (ct_g (setup ct)).
Proof.
  unfold sane. cbn. split; [reflexivity|].
  split; [right; auto|]. split; [discriminate|lia].
Qed.

(** X12.  Every run of the control loop from [setup] returns: no turn
    indexes the display or the goal array outside its bounds, whatever
    the pins, the clock and the serial line deliver.  Along the way the
    current goal index stays 0, the final goal index is -1 or 0, and
    [reached] is only ever set together with a distance inside the
    tolerance. *)
Theorem run_defined inputs ct :
  exists m,
    run' inputs (setup ct) = Some m
    /\ current_goal (ct_g m) = 0
    /\ (final_goal (ct_g m) = 0 \/ final_goal (ct_g m) = -1)
    /\ (st_reached (st (ct_g m)) = true ->
        distance (ct_g m) <= DST_TOLERANCE).
Proof.
  destruct (sane_run inputs (setup ct) (sane_setup ct))
    as (m & E & Hcg & Hfg & Hreach & _).
  exists m. split; [exact E|]. split; [exact Hcg|].
  split; [|exact Hreach]. destruct Hfg as [|(? & _)]; auto.
Qed.

(** X13.  The sketch plays a single goal: whenever a run from [setup]
    has brought the machine to NEXT_GOAL, the next turn of the loop shows
    four dashes, sets [completed] and moves to COMPLETE; the branch that
    advances to a further goal is never taken. *)
Theorem next_goal_completes inputs ct m inp :
  run' inputs (setup ct) = Some m ->
  handler_g m = NEXT_GOAL ->
  exists m' out,
    loop' inp m = Some (m', out)
    /\ handler_g m' = COMPLETE
    /\ display_value (ct_g m') = [# DASH_C; DASH_C; DASH_C; DASH_C]
    /\ st_completed (st (ct_g m')) = true
    /\ current_goal (ct_g m') = current_goal (ct_g m).
Proof.
  intros E Hh.
  destruct (sane_run inputs (setup ct) (sane_setup ct)) as (m0 & E0 & S).
  rewrite E in E0. injection E0 as <-.
  unfold loop.
  destruct (sane_update_loc _ (in_loc inp) (last_update m) _ S)
    as (lu & ct1 & E1 & S1).
  rewrite E1. cbn [mbind option_bind].
  pose proof (sane_update_buttons _ (in_time inp) (in_pins inp)
                (next_check m) _ S1) as S2.
  destruct (update_buttons _ _ _ ct1) as [nc ct2]. cbn [snd] in S2.
  rewrite Hh in *. cbn [handle mbind option_bind].
  destruct S as (Hcg & _).
  destruct S2 as (Hcg2 & [Hfg2|(_ & _ & _ & [|[|]])] & _); try discriminate.
  rewrite next_goal_handler_unfold, Hcg2, Hfg2.
  change (0 =? 0) with true. cbv iota.
  eexists _, _. split; [reflexivity|]. cbn [ct_g handler_g].
  destruct ct2 as [ip dv dist cg fg gs [s1 s2 s3 s4 s5 s6 s7 s8] bt].
  cbn in *. repeat split. congruence.
Qed.

End RunFacts.

(** ** The symbols on the display *)

Lemma valid_decimal x : x = BLANK_C \/ 0 <= x <= 9 -> valid_symbol x.
Proof. unfold valid_symbol. intros [->|H]; auto. left. lia. Qed.

Lemma valid_increment v :
  valid_symbol v -> v <> DASH_C ->
  valid_symbol (Z.rem (to_int (v + 1)) 16).
Proof.
  unfold valid_symbol, BLANK_C, DASH_C. intros [H|[->| ->]] Hd;
    [|left; vm_compute; split; discriminate|congruence].
  rewrite to_int_small by (unfold INT_MAX; lia).
  rewrite Z.rem_mod_nonneg by lia. left. Z.div_mod_to_equations. lia.
Qed.

Lemma subgoal_pos_valid ct c1 :
  subgoal_pos ct = Some c1 ->
  Forall valid_symbol (vec_to_list (display_value ct)) ->
  Forall valid_symbol (vec_to_list (display_value c1)).
Proof.
  unfold subgoal_pos. destruct (st_pos (st ct)); [|now intros [= <-]].
  destruct (index 4 (input_pos ct)) as [i|]; cbn [mbind option_bind];
    [|discriminate].
  destruct (index 4 _) as [j|]; cbn [mbind option_bind]; [|discriminate].
  intros [= <-] V.
  assert (valid_symbol DASH_C /\ valid_symbol BLANK_C) as [VD VB]
    by (unfold valid_symbol; auto).
  destruct ct as [ip dv dist cg fg gs s bt]. cbn [display_value] in *.
  destruct (_ =? DASH_C); cbn;
    repeat apply Forall_vinsert; assumption.
Qed.

Lemma subgoal_count_valid ct c1 :
  subgoal_count ct = Some c1 ->
  Forall valid_symbol (vec_to_list (display_value ct)) ->
  Forall valid_symbol (vec_to_list (display_value c1)).
Proof.
  unfold subgoal_count. destruct (st_count (st ct)); [|now intros [= <-]].
  destruct (index 4 (input_pos ct)) as [i|]; cbn [mbind option_bind];
    [|discriminate].
  intros E V.
  pose proof (Forall_vlookup_1 _ _ i V) as Vi.
  destruct (Z.eqb_spec (display_value ct !!! i) DASH_C) as [Hd|Hd];
    injection E as <-; destruct ct as [ip dv dist cg fg gs s bt];
    cbn [display_value store_display set_display_value] in *;
    apply Forall_vinsert; try assumption.
  - unfold valid_symbol. left. lia.
  - now apply valid_increment.
Qed.

(** [main_handler] writes the whole display; every other handler keeps a
    display of valid symbols valid. *)
Lemma handle_valid h polls ct ct' next out :
  h = MAIN \/ Forall valid_symbol (vec_to_list (display_value ct)) ->
  handle h polls ct = Some (ct', next, out) ->
  Forall valid_symbol (vec_to_list (display_value ct')).
Proof.
  assert (valid_symbol DASH_C /\ valid_symbol BLANK_C) as [VD VB]
    by (unfold valid_symbol; auto).
  assert (Forall valid_symbol [DASH_C; DASH_C; DASH_C; DASH_C]) as V4
    by (repeat constructor; assumption).
  intros V. destruct h; cbn [handle].
  - intros [= E _]. pose proof (main_handler_refresh ct) as P.
    cbv zeta in P. rewrite E in P.
    assert (Forall valid_symbol
              (vec_to_list (display_value
                 (if st_fetched (st ct) then set_distance ct
                  else set_display_value
                         [# DASH_C; DASH_C; DASH_C; DASH_C] ct)))) as Vs.
    { destruct (st_fetched (st ct)); [|exact V4].
      eapply Forall_impl; [apply set_distance_Forall|].
      intros x Hx. now apply valid_decimal. }
    destruct (_ && _); [injection P as -> _; exact Vs|].
    destruct (st_reset (st ct)); [injection P as -> _; exact Vs|].
    destruct (st_reached (st ct)); injection P as -> _; [|exact Vs].
    repeat constructor; assumption.
  - intros [= E _]. rewrite fetch_handler_unfold in E.
    destruct V as [|V]; [discriminate|].
    destruct (first_fix polls); injection E as <- _; destruct ct; exact V.
  - destruct V as [|V]; [discriminate|].
    unfold satcon_handler. destruct (negb _); intros [= <- _ _]; exact V.
  - destruct V as [|V]; [discriminate|].
    destruct (subgoal_handler ct) as [[ct1 n1]|] eqn:E;
      cbn [mbind option_bind]; [|discriminate].
    intros [= <- _ _]. rewrite subgoal_handler_unfold in E.
    destruct (subgoal_pos ct) as [c1|] eqn:E1; cbn [mbind option_bind] in E;
      [|discriminate].
    destruct (subgoal_count c1) as [c2|] eqn:E2;
      cbn [mbind option_bind] in E; [|discriminate].
    destruct (index 10 (current_goal c2)) as [g|];
      cbn [mbind option_bind] in E; [|discriminate].
    cbv zeta in E. injection E as <- _.
    pose proof (subgoal_count_valid _ _ E2 (subgoal_pos_valid _ _ E1 V)).
    destruct c2; assumption.
  - destruct V as [|V]; [discriminate|].
    intros [= E _]. rewrite next_goal_handler_unfold in E.
    destruct (_ =? _); injection E as <- _; [exact V4|].
    destruct ct; exact V.
  - destruct V as [|V]; [discriminate|].
    unfold complete_handler. destruct (negb _); intros [= <- _ _];
      destruct ct; exact V.
Qed.

Section DisplayFacts.

Variables sin cos round : float -> float.
Variable atan2 : float -> float -> float.
Variable double_to_int : float -> Z.
Variable encodeDigit : Z -> Z.

Local Abbreviation update_loc' :=
  (update_loc sin cos round atan2 double_to_int).
Local Abbreviation loop' :=
  (loop sin cos round atan2 double_to_int encodeDigit).
Local Abbreviation run' :=
  (run sin cos round atan2 double_to_int encodeDigit).

Lemma loop_valid inp m m' out :
  handler_g m = MAIN
  \/ Forall valid_symbol (vec_to_list (display_value (ct_g m))) ->
  loop' inp m = Some (m', out) ->
  Forall valid_symbol (vec_to_list (display_value (ct_g m'))).
Proof.
  intros V. unfold loop.
  destruct (update_loc' _ _ _) as [[lu ct1]|] eqn:E1;
    cbn [mbind option_bind]; [|discriminate].
  apply update_loc_frame in E1.
  assert (display_value ct1 = display_value (ct_g m)) as D1
    by (rewrite E1; reflexivity).
  pose proof (update_buttons_frame (in_time inp) (in_pins inp)
                (next_check m) ct1) as F2.
  destruct (update_buttons _ _ _ ct1) as [nc ct2]. cbn [snd] in F2.
  assert (display_value ct2 = display_value ct1) as D2
    by (unfold same_but_buttons in F2; rewrite F2; reflexivity).
  destruct (handle _ _ ct2) as [[[ct3 h] o]|] eqn:E3;
    cbn [mbind option_bind]; [|discriminate].
  intros [= <- _]. cbn [ct_g].
  apply (handle_valid _ _ _ _ _ _ ltac:(rewrite D2, D1; exact V) E3).
Qed.

Lemma run_valid inputs m m' :
  Forall valid_symbol (vec_to_list (display_value (ct_g m))) ->
  run' inputs m = Some m' ->
  Forall valid_symbol (vec_to_list (display_value (ct_g m'))).
Proof.
  revert m. induction inputs as [|inp inputs IH]; intros m V; cbn [run].
  - now intros [= <-].
  - destruct (loop' inp m) as [[m1 out]|] eqn:E; cbn [mbind option_bind];
      [|discriminate].
    apply IH. exact (loop_valid _ _ _ _ (or_intror V) E).
Qed.

(** X14.  After the first turn of the loop the display only ever holds
    valid symbols: each of the four positions is a hex digit, the blank
    or the dash.  The -1 that [init_context] stores never reaches
    [update_display], and the driver's [encodeDigit] is only asked for
    digits 0 to 15. *)
Theorem run_display_valid inp inputs ct m (i : fin 4) :
  run' (inp :: inputs) (setup ct) = Some m ->
  valid_symbol (display_value (ct_g m) !!! i).
Proof.
  cbn [run].
  destruct (loop' inp (setup ct)) as [[m1 out]|] eqn:E;
    cbn [mbind option_bind]; [|discriminate].
  intros R. apply Forall_vlookup_1.
  refine (run_valid _ _ _ (loop_valid inp (setup ct) _ _ _ E) R).
  left. reflexivity.
Qed.

End DisplayFacts.

(** ** The indicator light *)

(** Only [satcon_handler] writes a pin, and it leaves the LED on exactly
    when it stays. *)
Lemma handle_led h polls ct ct' next out led :
  handle h polls ct = Some (ct', next, out) ->
  led_after led out
  = match h with
    | SATCON => negb (st_satcon (st ct))
    | _ => led
    end
  /\ (h = SATCON ->
      (next = SATCON <-> st_satcon (st ct) = false) /\ ct' = ct).
Proof.
  destruct h; cbn [handle];
    try (intros [= _ <-]; split; [reflexivity|discriminate]).
  - unfold satcon_handler. destruct (st_satcon (st ct)) eqn:Hs;
      cbn [negb]; intros [= E1 E2 E3]; subst ct' next out;
      (split; [reflexivity|]); intros _; (split; [|reflexivity]);
      split; congruence.
  - destruct (subgoal_handler ct) as [[c n]|]; cbn [mbind option_bind];
      [|discriminate].
    intros [= _ _ <-]. split; [reflexivity|discriminate].
Qed.

Section LedFacts.

Variables sin cos round : float -> float.
Variable atan2 : float -> float -> float.
Variable double_to_int : float -> Z.
Variable encodeDigit : Z -> Z.

Local Abbreviation loop' :=
  (loop sin cos round atan2 double_to_int encodeDigit).
Local Abbreviation run_led' :=
  (run_led sin cos round atan2 double_to_int encodeDigit).

Lemma loop_led inp m m' out led :
  (led = true -> handler_g m = SATCON) ->
  loop' inp m = Some (m', out) ->
  led_after led out = true ->
  handler_g m' = SATCON /\ st_satcon (st (ct_g m')) = false.
Proof.
  intros I. unfold loop.
  destruct (update_loc _ _ _ _ _ _ _ _) as [[lu ct1]|];
    cbn [mbind option_bind]; [|discriminate].
  destruct (update_buttons _ _ _ ct1) as [nc ct2].
  destruct (handle _ _ ct2) as [[[ct3 h] o]|] eqn:E3;
    cbn [mbind option_bind]; [|discriminate].
  intros [= <- <-]. cbn [ct_g handler_g].
  unfold led_after. rewrite foldl_app. cbn [foldl update_display].
  fold (led_after led o).
  destruct (handle_led _ _ _ _ _ _ led E3) as [L S]. rewrite L.
  destruct (handler_g m) eqn:Hh;
    try (intros ->; specialize (I eq_refl); discriminate).
  intros Hs. destruct (S eq_refl) as [Hn ->].
  apply negb_true_iff in Hs. split; [now apply Hn|exact Hs].
Qed.

Lemma run_led_inv inputs m led m' led' :
  (led = true -> handler_g m = SATCON) ->
  run_led' inputs m led = Some (m', led') ->
  led' = true ->
  handler_g m' = SATCON.
Proof.
  revert m led. induction inputs as [|inp inputs IH]; intros m led I;
    cbn [run_led].
  - intros [= <- <-]. exact I.
  - destruct (loop' inp m) as [[m1 out]|] eqn:E; cbn [mbind option_bind];
      [|discriminate].
    apply IH. intros H. exact (proj1 (loop_led _ _ _ _ _ I E H)).
Qed.

(** X15.  The indicator light is lit only while the machine waits for
    the satellite connection: in every run from [setup], with the LED off
    at the start, the LED is on after a turn only if that turn ended in
    SATCON with the connection lost. *)
Theorem led_only_in_satcon inputs inp ct m led m' out :
  run_led' inputs (setup ct) false = Some (m, led) ->
  loop' inp m = Some (m', out) ->
  led_after led out = true ->
  handler_g m' = SATCON /\ st_satcon (st (ct_g m')) = false.
Proof.
  intros R E H.
  refine (loop_led inp m m' out led _ E H).
  intros Hl. refine (run_led_inv inputs (setup ct) false m led _ R Hl).
  discriminate.
Qed.

End LedFacts.

Lemma led_only_in_satcon_witness :
  exists m led m' out,
    run_led (fun x => x) (fun x => x) (fun x => x) (fun y _ => y)
            (fun _ => 0) (fun d => d) (firstn 1 silence) (setup zero_context)
            false
    = Some (m, led)
    /\ loop (fun x => x) (fun x => x) (fun x => x) (fun y _ => y)
            (fun _ => 0) (fun d => d)
            (mk_loop_input (mk_loc_input 6000 [] 6000 9000) 9000
                           (fun _ => 1) []) m
       = Some (m', out)
    /\ led_after led out = true
    /\ handler_g m' = SATCON /\ st_satcon (st (ct_g m')) = false.
Proof.
  eexists _, _, _, _.
  split; [vm_compute; reflexivity|].
  split; [vm_compute; reflexivity|].
  split; [vm_compute; reflexivity|].
  match goal with
  | |- handler_g ?m' = _ /\ _ =>
      refine (led_only_in_satcon (fun x => x) (fun x => x) (fun x => x)
                (fun y _ => y) (fun _ => 0) (fun d => d)
                (firstn 1 silence)
                (mk_loop_input (mk_loc_input 6000 [] 6000 9000) 9000
                               (fun _ => 1) [])
                zero_context _ _ m' _ _ _ _)
  end.
  - vm_compute. reflexivity.
  - vm_compute. reflexivity.
  - vm_compute. reflexivity.
Defined.

(** ** The theorems about the control loop at concrete inputs *)

Lemma edge_flag_one_shot_witness :
  exists m1 m2 out1 out2,
    loop0 (turn 1000 (reset_pin 0)) (setup zero_context) = Some (m1, out1)
    /\ loop0 (turn 1200 (reset_pin 0)) m1 = Some (m2, out2)
    /\ load_event (btn_event (btn (ct_g m1) !!! 0%fin)) (st (ct_g m1))
       = true
    /\ load_event (btn_event (btn (ct_g m2) !!! 0%fin)) (st (ct_g m2))
       = false.
Proof.
  eexists _, _, _, _.
  assert (W : btn_wired (ct_g (setup zero_context)))
    by (repeat split).
  split; [vm_compute; reflexivity|].
  split; [vm_compute; reflexivity|].
  split; [vm_compute; reflexivity|].
  refine (edge_flag_one_shot
            (fun x => x) (fun x => x) (fun x => x) (fun y _ => y)
            (fun _ => 0) (fun d => d) (turn 1000 (reset_pin 0))
            (turn 1200 (reset_pin 0)) (setup zero_context) _ _ _ _ 0%fin
            W _ _ _).
  - vm_compute. reflexivity.
  - vm_compute. reflexivity.
  - vm_compute. reflexivity.
Defined.

Lemma update_loc_not_fetched_witness :
  update_loc0 (mk_loc_input 0 [Some here] 10 20) None boot_context
  = Some (10, set_st (set_st_satcon true (st boot_context)) boot_context).
Proof.
  exact (update_loc_not_fetched
           (fun x => x) (fun x => x) (fun x => x) (fun y _ => y) (fun _ => 0)
           (mk_loc_input 0 [Some here] 10 20) None boot_context eq_refl).
Defined.

Lemma update_loc_timeout_witness :
  exists lu' ct',
    update_loc0 (mk_loc_input 6000 [] 6000 9000) (Some 5000) boot_context
    = Some (lu', ct')
    /\ lu' = 5000
    /\ (st_satcon (st ct') = true <-> 9000 < 5000 + GPS_TIMEOUT).
Proof.
  eexists _, _. split; [vm_compute; reflexivity|].
  apply (update_loc_timeout
           (fun x => x) (fun x => x) (fun x => x) (fun y _ => y) (fun _ => 0)
           (mk_loc_input 6000 [] 6000 9000) 5000 boot_context).
  - vm_compute. reflexivity.
  - intros fx. discriminate.
  - lia.
  - unfold GPS_TIMEOUT, UINT32_MAX. lia.
Defined.

Lemma update_loc_satcon_wraps_witness :
  exists lu' ct',
    update_loc0 (mk_loc_input 4294967000 [Some here] 4294967000 4294967001)
                None boot_context
    = Some (lu', ct')
    /\ st_satcon (st ct') = false.
Proof.
  eexists _, _. split; [vm_compute; reflexivity|].
  apply (update_loc_satcon_wraps
           (fun x => x) (fun x => x) (fun x => x) (fun y _ => y) (fun _ => 0)
           (mk_loc_input 4294967000 [Some here] 4294967000 4294967001)
           None boot_context 4294967000).
  - vm_compute. reflexivity.
  - unfold GPS_TIMEOUT, UINT32_MAX. cbn. lia.
  - unfold UINT32_MAX. cbn. lia.
Defined.

Lemma next_goal_completes_witness :
  exists m,
    run0 game (setup zero_context) = Some m
    /\ handler_g m = NEXT_GOAL
    /\ exists m' out,
         loop0 (turn 6800 (fun _ => 1)) m = Some (m', out)
         /\ handler_g m' = COMPLETE
         /\ st_completed (st (ct_g m')) = true.
Proof.
  eexists. split; [vm_compute; reflexivity|]. split; [reflexivity|].
  match goal with
  | |- exists m' out, loop0 _ ?m = _ /\ _ =>
      destruct (next_goal_completes
                  (fun x => x) (fun x => x) (fun x => x) (fun y _ => y)
                  (fun _ => 0) (fun d => d) game zero_context m
                  (turn 6800 (fun _ => 1)))
        as (m' & out & E & H & _ & C & _)
  end.
  - vm_compute. reflexivity.
  - reflexivity.
  - exists m', out. split; [exact E|]. split; [exact H|exact C].
Defined.

Lemma run_display_valid_witness :
  exists m,
    run0 (turn 1000 (reset_pin 0) :: tap POS 1400) (setup zero_context)
    = Some m
    /\ valid_symbol (display_value (ct_g m) !!! 0%fin).
Proof.
  eexists. split; [vm_compute; reflexivity|].
  apply (run_display_valid
           (fun x => x) (fun x => x) (fun x => x) (fun y _ => y)
           (fun _ => 0) (fun d => d) (turn 1000 (reset_pin 0))
           (tap POS 1400) zero_context).
  vm_compute. reflexivity.
Defined.
